(** * ArtmoCon: the content-assistant backend of [index.js]

    A shallow embedding of the four Express handlers of [index.js]
    (onboarding, generation, rating, analytics), of the two Mongoose
    collections they work on and of the outbound chat-completion call,
    followed by the properties of the handlers.

    - Collections are lists in retrieval (insertion) order; a document is
      identified by its position, which plays the part of [_id].
    - [await]ed calls run in a small monad: a call resolves or rejects, and
      a rejection inside [try] is turned into the 500 answer of [catch].
    - JavaScript numbers are binary64 floats (the kernel's primitive
      floats); [toFixed] follows ECMA-262. *)

From Stdlib Require Import ZArith QArith Qround Qabs Qpower Lqa.
From Stdlib Require Import String Ascii Floats.
From stdpp Require Import base list strings.

Local Open Scope string_scope.
Local Open Scope list_scope.

(** ** Values of a JSON request body *)

(** Fields that the schemas declare as [String] are taken at that type: a
    field is absent ([None], JavaScript's [undefined]) or a string.  The
    [rating] field is inspected with [typeof], so it is kept as an
    arbitrary JSON scalar. *)
Inductive JsValue :=
| JNull
| JBool (b : bool)
| JNumber (x : float)
| JString (s : string).

Definition typeof (v : option JsValue) : string :=
  match v with
  | None => "undefined"
  | Some JNull => "object"
  | Some (JBool _) => "boolean"
  | Some (JNumber _) => "number"
  | Some (JString _) => "string"
  end.

(** [!v] on a field that is absent or a string: true for [undefined] and
    for the empty string. *)
Definition not_ (v : option string) : bool :=
  match v with
  | None => true
  | Some "" => true
  | Some _ => false
  end.

(** The string held by a field that passed the [!v] guard. *)
Definition text (v : option string) : string := default "" v.

(** The number held by a field whose [typeof] is ["number"]. *)
Definition number (v : option JsValue) : option float :=
  match v with
  | Some (JNumber x) => Some x
  | _ => None
  end.

(** ** JavaScript numbers *)

Definition digit (d : Z) : ascii := ascii_of_nat (48 + Z.to_nat d).

Fixpoint decimalFuel (fuel : nat) (n : Z) : list ascii :=
  match fuel with
  | O => []
  | S fuel =>
      (if (n <? 10)%Z then [] else decimalFuel fuel (n / 10)) ++ [digit (n mod 10)]
  end.

(** The digits of the decimal representation of [n >= 0], most significant
    first, with no leading zeroes (["0"] for zero). *)
Definition decimal (n : Z) : list ascii :=
  decimalFuel (S (Z.to_nat (Z.log2 n))) n.

(** The mathematical value [m * 2^e] of a finite nonzero float. *)
Definition value (m : positive) (e : Z) : Q := inject_Z (Z.pos m) * 2 ^ e.

(** Sign and magnitude of a finite float; [None] for NaN and infinities.
    Both zeroes have magnitude 0 and are not negative. *)
Definition real (x : float) : option (bool * Q) :=
  match Prim2SF x with
  | S754_zero _ => Some (false, 0%Q)
  | S754_finite s m e => Some (s, value m e)
  | _ => None
  end.

Definition Qlt_bool (a b : Q) : bool := negb (Qle_bool b a).

(** [v] converts to the float [m * 2^e] (round to nearest, ties to even). *)
Definition roundsTo (m : positive) (e : Z) (v : Q) : bool :=
  let x := value m e in
  let above := (x + 2 ^ (e - 1))%Q in
  let below :=
    if (Z.pos m =? 2 ^ 52)%Z && (-1074 <? e)%Z then (x - 2 ^ (e - 2))%Q
    else (x - 2 ^ (e - 1))%Q in
  if Z.even (Z.pos m) then Qle_bool below v && Qle_bool v above
  else Qlt_bool below v && Qlt_bool v above.

(** The [k]-digit integers [s] with [s * 10^(n-k)] converting to the float,
    for the exponents [n] next to the float's own. *)
Definition candidates (m : positive) (e : Z) (k : Z) : list (Z * Z) :=
  let x := value m e in
  let n0 := ((Z.log2 (Z.pos m) + e) * 30103 / 100000)%Z in
  n ← [n0 - 1; n0; n0 + 1; n0 + 2; n0 + 3]%Z;
  let s0 := Qfloor (x / 10 ^ (n - k)) in
  s ← [s0; s0 + 1]%Z;
  if (10 ^ (k - 1) <=? s)%Z && (s <? 10 ^ k)%Z
     && roundsTo m e (inject_Z s * 10 ^ (n - k))
  then [(s, n)] else [].

(** Of two candidates the one closer to the float, the even one on a tie. *)
Definition closer (x : Q) (k : Z) (a b : Z * Z) : Z * Z :=
  let dist c := Qabs (inject_Z (fst c) * 10 ^ (snd c - k) - x) in
  if Qlt_bool (dist b) (dist a) then b
  else if Qlt_bool (dist a) (dist b) then a
  else if Z.even (fst a) then a else b.

Fixpoint shortest (fuel : nat) (m : positive) (e : Z) (k : Z) : Z * Z * Z :=
  match fuel with
  | O => (0, k, 0)%Z
  | S fuel =>
      match candidates m e k with
      | c :: cs => let '(s, n) := foldl (closer (value m e) k) c cs in (n, k, s)
      | [] => shortest fuel m e (k + 1)
      end
  end.

(** Number::toString(x, 10) for a finite [x > 0] (ECMA-262, 6.1.6.1.20,
    steps 5 to 11). *)
Definition toStringPositive (m : positive) (e : Z) : list ascii :=
  let '(n, k, s) := shortest 17 m e 1 in
  let digits := decimal s in
  if (-5 <=? n)%Z && (n <=? 21)%Z then
    if (k <=? n)%Z then digits ++ replicate (Z.to_nat (n - k)) "0"%char
    else if (0 <? n)%Z then
      take (Z.to_nat n) digits ++ "."%char :: drop (Z.to_nat n) digits
    else "0"%char :: "."%char :: replicate (Z.to_nat (- n)) "0"%char ++ digits
  else
    let c := if (n <? 0)%Z then "-"%char else "+"%char in
    let exponent := decimal (Z.abs (n - 1)) in
    if (k =? 1)%Z then digits ++ "e"%char :: c :: exponent
    else take 1 digits ++ "."%char :: drop 1 digits ++ "e"%char :: c :: exponent.

Definition sign (negative : bool) : list ascii :=
  if negative then ["-"%char] else [].

(** Number::toString(x, 10) *)
Definition Number_toString (x : float) : string :=
  string_of_list_ascii
    match Prim2SF x with
    | S754_nan => list_ascii_of_string "NaN"
    | S754_zero _ => ["0"%char]
    | S754_infinity s => sign s ++ list_ascii_of_string "Infinity"
    | S754_finite s m e => sign s ++ toStringPositive m e
    end.

(** The integer [n] for which [n / 10^f - x] is as close to zero as
    possible, the larger one if there are two. *)
Definition nearest (f : nat) (x : Q) : Z :=
  Qfloor (x * 10 ^ Z.of_nat f + (1 # 2)).

(** Steps 11.b and 11.c of Number.prototype.toFixed. *)
Definition fixedDigits (f : nat) (n : Z) : list ascii :=
  let m := decimal n in
  if Nat.eqb f 0 then m
  else
    let m := if (length m <=? f)%nat
             then replicate (f + 1 - length m) "0"%char ++ m else m in
    let k := length m in
    take (k - f) m ++ "."%char :: drop (k - f) m.

(** Number.prototype.toFixed(fractionDigits) (ECMA-262, 21.1.3.3), for
    [0 <= fractionDigits <= 100]. *)
Definition toFixed (x : float) (fractionDigits : nat) : string :=
  match Prim2SF x with
  | S754_zero _ => string_of_list_ascii (fixedDigits fractionDigits 0)
  | S754_finite s m e =>
      string_of_list_ascii
        (sign s ++
         if Qle_bool (10 ^ 21) (value m e) then toStringPositive m e
         else fixedDigits fractionDigits (nearest fractionDigits (value m e)))
  | _ => Number_toString x
  end.

(** A non-negative integer as a Number, as [prompts.length] is. *)
Definition Number_ofZ (z : Z) : float :=
  SF2Prim (binary_normalize prec emax z 0 false).

(** [x || 0] on a field that is absent or a number: NaN and both zeroes
    are falsy. *)
Definition orZero (x : option float) : float :=
  match x with
  | Some x => if PrimFloat.is_nan x || PrimFloat.is_zero x then 0%float else x
  | None => 0%float
  end.

(** [array.slice(start)] *)
Definition slice {A} (start : Z) (l : list A) : list A :=
  let len := Z.of_nat (length l) in
  let k := if (start <? 0)%Z then Z.max (len + start) 0 else Z.min start len in
  drop (Z.to_nat k) l.

(** ** What the provider's answer can hold *)

(** [completion.choices[0].message.content]: a text, [null], or nothing
    at all (the message has no such field).  Reading it never throws,
    whichever of the three it is. *)
Inductive MessageContent :=
| ContentText (T : string)
| ContentNull
| ContentAbsent.

Coercion ContentText : string >-> MessageContent.

(** ** Documents of the two collections *)

Module Organization.
Record t := mk {
  orgName : string;
  brandGuide : string;
  goals : string;
  personas : string;
  stylePreferences : string;
}.
End Organization.

(** The [content] of a Prompt is what the provider's message held: a
    document created from a message without content has none. *)
Module Prompt.
Record t := mk {
  orgName : string;
  prompt : string;
  content : MessageContent;
  rating : option float;
  feedback : option string;
}.
End Prompt.

(** ** The chat-completion request sent to the provider *)

Module Chat.
Record Message := mkMessage { role : string; content : string }.
Record Request := mkRequest { model : string; messages : list Message }.
End Chat.

(** ** The world outside the process: the data store and the provider *)

(** [sent] lists the chat requests that the process has handed to the
    provider's client, one entry per call of
    [openai.chat.completions.create], in order.  How often the client
    library transmits one call (its retry policy) lies beneath that
    call and outside [index.js]; every transmission of a call carries
    the same request. *)

Record World := mkWorld {
  organizations : list Organization.t;
  prompts : list Prompt.t;
  sent : list Chat.Request;
}.

Inductive StoreOp :=
| OrganizationCreate
| OrganizationFindOne
| PromptCreate
| PromptFindOne
| PromptSave
| PromptFind.

(** ** Request and response shapes *)

Record OnboardBody := mkOnboardBody {
  onboard_orgName : option string;
  onboard_brandGuide : option string;
  onboard_goals : option string;
  onboard_personas : option string;
  onboard_stylePreferences : option string;
}.

Record GenerateBody := mkGenerateBody {
  generate_orgName : option string;
  generate_prompt : option string;
}.

Record RateBody := mkRateBody {
  rate_orgName : option string;
  rate_prompt : option string;
  rate_rating : option JsValue;
  rate_feedback : option string;
}.

(** One entry of [last5Feedbacks]: [{prompt, rating, feedback}]. *)
Record Feedback := mkFeedback {
  fb_prompt : string;
  fb_rating : option float;
  fb_feedback : option string;
}.

(** What an answer carries: the plain text of the root route, or one of
    the JSON bodies [{error}], [{message}], [{content}] (which is
    [{content: null}] or [{}] when the provider's message held [null] or
    nothing) and [{totalGenerated, averageRating, last5Feedbacks}]. *)
Inductive Body :=
| Text (s : string)
| Error (error : string)
| Message (message : string)
| Content (content : MessageContent)
| Analytics (totalGenerated : nat) (averageRating : string)
    (last5Feedbacks : list Feedback).

Record Response := mkResponse { status : Z; body : Body }.

Inductive Request :=
| GetRoot
| PostOnboard (b : OnboardBody)
| PostGenerate (b : GenerateBody)
| PostRate (b : RateBody)
| GetAnalytics (orgName : string).

(** ** Awaited calls *)

Inductive Outcome (A : Type) :=
| Resolved (a : A)
| Rejected.
Arguments Resolved {A} a.
Arguments Rejected {A}.

Definition Async (A : Type) : Type := World -> Outcome A * World.

Definition Handler : Type := World -> Response * World.

Definition resolve {A} (a : A) : Async A := fun w => (Resolved a, w).

Definition await {A B} (c : Async A) (k : A -> Async B) : Async B :=
  fun w =>
    match c w with
    | (Resolved a, w') => k a w'
    | (Rejected, w') => (Rejected, w')
    end.

Notation "x <~ c ; k" := (await c (fun x => k))
  (at level 20, c at level 100, k at level 200, only parsing).
Notation "' x <~ c ; k" := (await c (fun x => k))
  (at level 20, x pattern, c at level 100, k at level 200, only parsing).

(** [try { body } catch (err) { res.status(500)... }] *)
Definition tryCatch (body : Async Response) (caught : Response) : Handler :=
  fun w =>
    match body w with
    | (Resolved r, w') => (r, w')
    | (Rejected, w') => (caught, w')
    end.

(** [return res.status(code).json(body)] before the [try]. *)
Definition respond (r : Response) : Handler := fun w => (r, w).

Definition json (code : Z) (b : Body) : Response := mkResponse code b.

(** ** The collaborators: Mongoose models and the OpenAI client *)

Section Handlers.

(** Which store operations reject (connection lost, write refused, ...),
    and what the provider answers to a request: [Some c] when the call
    resolves and the first choice has a message, [c] being what its
    [content] holds (a text, [null] or nothing); [None] when the call
    rejects or the answer has no first choice with a message, so that
    reading [completion.choices[0].message.content] throws. *)
Variable storeFails : StoreOp -> bool.
Variable complete : Chat.Request -> option MessageContent.

Definition store {A} (op : StoreOp) (run : World -> A * World) : Async A :=
  fun w =>
    if storeFails op then (Rejected, w)
    else let '(a, w') := run w in (Resolved a, w').

(** [Organization.create(doc)] *)
Definition Organization_create (doc : Organization.t) : Async unit :=
  store OrganizationCreate (fun w =>
    (tt, mkWorld (organizations w ++ [doc]) (prompts w) (sent w))).

(** [Organization.findOne({ orgName })]: the first match in store order. *)
Definition Organization_findOne (orgName : string)
  : Async (option Organization.t) :=
  store OrganizationFindOne (fun w =>
    (snd <$> list_find (fun o => Organization.orgName o = orgName)
               (organizations w), w)).

(** [Prompt.create(doc)] *)
Definition Prompt_create (doc : Prompt.t) : Async unit :=
  store PromptCreate (fun w =>
    (tt, mkWorld (organizations w) (prompts w ++ [doc]) (sent w))).

(** [Prompt.findOne({ orgName, prompt })]: the first match, with the
    position that identifies it. *)
Definition Prompt_findOne (orgName prompt : string)
  : Async (option (nat * Prompt.t)) :=
  store PromptFindOne (fun w =>
    (list_find (fun p => Prompt.orgName p = orgName /\ Prompt.prompt p = prompt)
       (prompts w), w)).

(** [entry.save()]: writes the document back where it was found. *)
Definition Prompt_save (id : nat) (entry : Prompt.t) : Async unit :=
  store PromptSave (fun w =>
    (tt, mkWorld (organizations w) (<[id := entry]> (prompts w)) (sent w))).

(** [Prompt.find({ orgName })]: every match, in store order. *)
Definition Prompt_find (orgName : string) : Async (list Prompt.t) :=
  store PromptFind (fun w =>
    (filter (fun p => Prompt.orgName p = orgName) (prompts w), w)).

(** [openai.chat.completions.create(request)] followed by
    [completion.choices[0].message.content].  The call is logged in
    [sent] whether it resolves or rejects. *)
Definition openai_chat_completions_create (request : Chat.Request)
  : Async MessageContent :=
  fun w =>
    let w' := mkWorld (organizations w) (prompts w) (sent w ++ [request]) in
    match complete request with
    | Some content => (Resolved content, w')
    | None => (Rejected, w')
    end.

(** ** The routes *)

(** [app.get('/')] *)
Definition root : Handler :=
  respond (mkResponse 200 (Text "Welcome to AI Content Assistant API!")).

(** [app.post('/api/onboard')] *)
Definition onboard (body : OnboardBody) : Handler :=
  let orgName := onboard_orgName body in
  let brandGuide := onboard_brandGuide body in
  let goals := onboard_goals body in
  let personas := onboard_personas body in
  let stylePreferences := onboard_stylePreferences body in
  if not_ orgName || not_ brandGuide || not_ goals || not_ personas
     || not_ stylePreferences
  then respond (json 400 (Error "Missing required fields"))
  else
    tryCatch
      (_ <~ Organization_create
              (Organization.mk (text orgName) (text brandGuide) (text goals)
                 (text personas) (text stylePreferences));
       resolve (json 200 (Message "Organization onboarded successfully")))
      (json 500 (Error "Error saving organization")).

Definition LF : string := String (ascii_of_nat 10) "".

(** The template literal of [systemPrompt]. *)
Definition systemPrompt (org : Organization.t) : string :=
  "You are a content strategist. Use the following brand details to generate helpful marketing content."
  +:+ LF +:+ LF +:+ "Brand Guide: " +:+ Organization.brandGuide org
  +:+ LF +:+ "Goals: " +:+ Organization.goals org
  +:+ LF +:+ "Style: " +:+ Organization.stylePreferences org.

(** [app.post('/api/generate')].  The [console.error] of the [catch]
    block writes to the process log only and is left out. *)
Definition generate (body : GenerateBody) : Handler :=
  let orgName := generate_orgName body in
  let prompt := generate_prompt body in
  if not_ orgName || not_ prompt
  then respond (json 400 (Error "orgName and prompt are required"))
  else
    tryCatch
      (org <~ Organization_findOne (text orgName);
       match org with
       | None => resolve (json 404 (Error "Organization not found"))
       | Some org =>
           content <~ openai_chat_completions_create
             (Chat.mkRequest "gpt-3.5-turbo"
                [Chat.mkMessage "system" (systemPrompt org);
                 Chat.mkMessage "user" (text prompt)]);
           _ <~ Prompt_create
                  (Prompt.mk (text orgName) (text prompt) content None None);
           resolve (json 200 (Content content))
       end)
      (json 500 (Error "Error generating content")).

(** [app.post('/api/rate')] *)
Definition rate (body : RateBody) : Handler :=
  let orgName := rate_orgName body in
  let prompt := rate_prompt body in
  let rating := rate_rating body in
  let feedback := rate_feedback body in
  if not_ orgName || not_ prompt
     || negb (String.eqb (typeof rating) "number")
  then respond (json 400 (Error "Missing required fields or invalid rating"))
  else
    tryCatch
      (found <~ Prompt_findOne (text orgName) (text prompt);
       match found with
       | None => resolve (json 404 (Error "Prompt not found for this organization"))
       | Some (id, entry) =>
           let entry :=
             Prompt.mk (Prompt.orgName entry) (Prompt.prompt entry)
               (Prompt.content entry) (number rating) feedback in
           _ <~ Prompt_save id entry;
           resolve (json 200 (Message "Feedback recorded"))
       end)
      (json 500 (Error "Error saving feedback")).

(** [prompts.reduce((sum, p) => sum + (p.rating || 0), 0) / prompts.length] *)
Definition avgRating (prompts : list Prompt.t) : float :=
  (foldl (fun sum p => sum + orZero (Prompt.rating p)) 0 prompts
   / Number_ofZ (Z.of_nat (length prompts)))%float.

(** [p => ({ prompt: p.prompt, rating: p.rating, feedback: p.feedback })] *)
Definition feedbackOf (p : Prompt.t) : Feedback :=
  mkFeedback (Prompt.prompt p) (Prompt.rating p) (Prompt.feedback p).

(** [app.get('/api/analytics/:orgName')] *)
Definition analytics (orgName : string) : Handler :=
  tryCatch
    (prompts <~ Prompt_find orgName;
     if Nat.eqb (length prompts) 0
     then resolve (json 404 (Error "No data found for this organization"))
     else
       resolve (json 200
         (Analytics (length prompts) (toFixed (avgRating prompts) 2)
            (feedbackOf <$> slice (-5) prompts))))
    (json 500 (Error "Error fetching analytics")).

(** The router. *)
Definition handle (req : Request) : Handler :=
  match req with
  | GetRoot => root
  | PostOnboard body => onboard body
  | PostGenerate body => generate body
  | PostRate body => rate body
  | GetAnalytics orgName => analytics orgName
  end.

End Handlers.

(** ** A small store to run the handlers on *)

Definition acme : Organization.t :=
  Organization.mk "Acme" "Bold and friendly" "Sell anvils" "Coyotes" "Short".

Definition acmePrompts : list Prompt.t :=
  [ Prompt.mk "Acme" "slogan" "Anvils that land." (Some 4%float) (Some "good");
    Prompt.mk "Acme" "tagline" "Gravity works." None None;
    Prompt.mk "Acme" "slogan" "Drop it." (Some 2%float) None ].

Definition world0 : World := mkWorld [acme] acmePrompts [].

(** A store that never rejects, and a provider that always answers. *)
Definition reliable : StoreOp -> bool := fun _ => false.
Definition echo : Chat.Request -> option MessageContent :=
  fun _ => Some (ContentText "Generated.").

(** The request that [generate] sends for an organization and a prompt. *)
Definition completionRequest (org : Organization.t) (prompt : string)
  : Chat.Request :=
  Chat.mkRequest "gpt-3.5-turbo"
    [Chat.mkMessage "system" (systemPrompt org);
     Chat.mkMessage "user" prompt].

(** The fixed text of the system instruction around its three slots. *)
Definition instruction (brandGuide goals style : string) : string :=
  "You are a content strategist. Use the following brand details to generate helpful marketing content."
  +:+ LF +:+ LF +:+ "Brand Guide: " +:+ brandGuide
  +:+ LF +:+ "Goals: " +:+ goals
  +:+ LF +:+ "Style: " +:+ style.

(** ** The average as the spec words it *)

(** What a record counts for in the spec's words: its rating if set,
    else 0. *)
Definition ratingOrZero (p : Prompt.t) : float :=
  match Prompt.rating p with
  | Some x => x
  | None => 0%float
  end.

(** The ratings that are set are numbers: none is NaN (JSON has no NaN,
    so no request can supply one). *)
Definition ratingsAreNumbers (ps : list Prompt.t) : Prop :=
  Forall (fun p => forall x, Prompt.rating p = Some x ->
                             PrimFloat.is_nan x = false) ps.

(** What a record counts for in the handler: [p.rating || 0]. *)
Definition counted (p : Prompt.t) : float := orZero (Prompt.rating p).

(** Two floats that are the same number: equal, or both a zero (of
    either sign). *)
Definition alike (a b : spec_float) : Prop :=
  a = b \/ exists s s', a = S754_zero s /\ b = S754_zero s'.

(** The arithmetic mean of a list of numbers, in double arithmetic: their
    sum from left to right, divided by their count. *)
Definition mean (xs : list float) : float :=
  (foldl PrimFloat.add 0 xs / Number_ofZ (Z.of_nat (length xs)))%float.

(** ** Text with exactly two decimal places *)

Definition isDigit (c : ascii) : bool :=
  (48 <=? nat_of_ascii c)%nat && (nat_of_ascii c <=? 57)%nat.

(** One or more digits, a point, two digits. *)
Definition wholeThenFraction (cs : list ascii) : bool :=
  match rev cs with
  | d2 :: d1 :: p :: (_ :: _) as whole =>
      Ascii.eqb p "."%char && isDigit d1 && isDigit d2 && forallb isDigit whole
  | _ => false
  end.

(** An optional minus sign, then digits with exactly two decimals. *)
Definition twoDecimalPlaces (s : string) : bool :=
  match list_ascii_of_string s with
  | c :: cs =>
      if Ascii.eqb c "-"%char then wholeThenFraction cs
      else wholeThenFraction (c :: cs)
  | [] => false
  end.

(** A store whose only Prompt record was rated 1e21. *)
Definition world21 : World :=
  mkWorld [acme]
    [Prompt.mk "Acme" "slogan" "Anvils that land." (Some 1e21%float) None] [].

(** ** More stores and collaborators to run the handlers on *)

(** A store that rejects every operation. *)
Definition down : StoreOp -> bool := fun _ => true.

Definition initech : Organization.t :=
  Organization.mk "Initech" "Drab" "TPS reports" "Managers" "Formal".

Definition world2 : World :=
  mkWorld [acme; initech]
    (acmePrompts ++
     [Prompt.mk "Initech" "memo" "Please advise." (Some 3%float) None])
    [].

(** A store whose only Prompt record was rated -1/1024. *)
Definition worldNegative : World :=
  mkWorld [acme]
    [Prompt.mk "Acme" "slogan" "Anvils that land." (Some (-0x1p-10)%float)
       None] [].

(** ** What the spec calls a missing field *)

(** A field is missing when it is absent or empty: the two cases in which
    the guard [!field] fires and the handler answers "Missing required
    fields". *)
Definition missing (v : option string) : Prop := v = None \/ v = Some "".

(* ================================================================= *)
(** * Properties *)

Lemma not_true v : not_ v = true <-> missing v.
Proof.
  unfold missing. destruct v as [[|c s]|]; simpl; split; intros H;
    try done; try (destruct H; done); auto.
Qed.

Lemma not_false v : not_ v = false <-> exists s, v = Some s /\ s <> "".
Proof.
  destruct v as [[|c s]|]; simpl; split; try done.
  - intros (s & [= <-] & Hs). done.
  - intros _. by eexists.
  - intros (s & ? & _). done.
Qed.

Lemma not_present s : s <> "" -> not_ (Some s) = false.
Proof. intros Hs. apply not_false. eauto. Qed.

(** *** Onboarding *)

(** C8: an onboarding request in which any of the five fields is missing
    (absent) or empty is answered 400 "Missing required fields", and the
    store is left as it was: no Organization record is created. *)
Theorem onboard_missing_field storeFails body w :
  missing (onboard_orgName body) \/ missing (onboard_brandGuide body)
  \/ missing (onboard_goals body) \/ missing (onboard_personas body)
  \/ missing (onboard_stylePreferences body) ->
  onboard storeFails body w = (json 400 (Error "Missing required fields"), w).
Proof.
  rewrite <- !not_true. intros H. unfold onboard.
  assert (not_ (onboard_orgName body) || not_ (onboard_brandGuide body)
          || not_ (onboard_goals body) || not_ (onboard_personas body)
          || not_ (onboard_stylePreferences body) = true) as ->; [|done].
  rewrite !orb_true_iff. tauto.
Qed.

Lemma onboard_missing_field_witness :
  onboard reliable (mkOnboardBody (Some "Acme") (Some "guide") (Some "")
                      (Some "people") None) world0
  = (json 400 (Error "Missing required fields"), world0).
Proof.
  apply (onboard_missing_field reliable
           (mkOnboardBody (Some "Acme") (Some "guide") (Some "")
              (Some "people") None) world0).
  right. right. left. right. reflexivity.
Defined.

Lemma onboard_guard_false body :
  not_ (onboard_orgName body) || not_ (onboard_brandGuide body)
  || not_ (onboard_goals body) || not_ (onboard_personas body)
  || not_ (onboard_stylePreferences body) = false ->
  exists a b c d e,
    body = mkOnboardBody (Some a) (Some b) (Some c) (Some d) (Some e)
    /\ a <> "" /\ b <> "" /\ c <> "" /\ d <> "" /\ e <> "".
Proof.
  rewrite !orb_false_iff, !not_false.
  intros ((((Ha & Hb) & Hc) & Hd) & He).
  destruct Ha as (a & Ha & ?), Hb as (b & Hb & ?), Hc as (c & Hc & ?),
    Hd as (d & Hd & ?), He as (e & He & ?).
  exists a, b, c, d, e. destruct body; simpl in *; subst. done.
Qed.

(** The organizations of the store after a request are those before it,
    in place and unchanged, followed by what the request created. *)
Lemma handle_keeps_organizations storeFails complete req w :
  exists created,
    organizations (handle storeFails complete req w).2
    = organizations w ++ created
    /\ match req with PostOnboard _ => True | _ => created = [] end.
Proof.
  destruct req as [|body|body|body|name]; simpl.
  - exists []. by rewrite app_nil_r.
  - unfold onboard. destruct (_ || _).
    + exists []. by rewrite app_nil_r.
    + unfold tryCatch, await, Organization_create, store.
      destruct (storeFails OrganizationCreate); simpl; eauto.
      exists []. by rewrite app_nil_r.
  - exists []. rewrite app_nil_r. split; [|done].
    unfold generate. destruct (_ || _); [done|].
    unfold tryCatch, await, Organization_findOne, Prompt_create,
      openai_chat_completions_create, store.
    destruct (storeFails OrganizationFindOne); [done|]. simpl.
    destruct (list_find _ _) as [[i org]|]; [|done]. simpl.
    destruct (complete _); [|done]. simpl.
    by destruct (storeFails PromptCreate).
  - exists []. rewrite app_nil_r. split; [|done].
    unfold rate. destruct (_ || _); [done|].
    unfold tryCatch, await, Prompt_findOne, Prompt_save, store.
    destruct (storeFails PromptFindOne); [done|]. simpl.
    destruct (list_find _ _) as [[i entry]|]; [|done]. simpl.
    by destruct (storeFails PromptSave).
  - exists []. rewrite app_nil_r. split; [|done].
    unfold analytics, tryCatch, await, Prompt_find, store.
    destruct (storeFails PromptFind); [done|]. simpl.
    by destruct (length _ =? 0)%nat.
Qed.

(** C5: an onboarding request answered 200 supplied five non-empty
    strings and created exactly one Organization record, appended to the
    collection and carrying those five values; and no request to any
    route updates or deletes an Organization record: the records present
    before the request are still there, in place and unchanged, after it
    (only onboarding adds to them). *)
Theorem onboard_creates_one_organization storeFails complete :
  (forall body w,
     status (onboard storeFails body w).1 = 200%Z ->
     exists orgName brandGuide goals personas stylePreferences,
       body = mkOnboardBody (Some orgName) (Some brandGuide) (Some goals)
                (Some personas) (Some stylePreferences)
       /\ orgName <> "" /\ brandGuide <> "" /\ goals <> ""
       /\ personas <> "" /\ stylePreferences <> ""
       /\ (onboard storeFails body w).2
          = mkWorld
              (organizations w ++
               [Organization.mk orgName brandGuide goals personas
                  stylePreferences])
              (prompts w) (sent w))
  /\ (forall req w,
        exists created,
          organizations (handle storeFails complete req w).2
          = organizations w ++ created
          /\ match req with PostOnboard _ => True | _ => created = [] end).
Proof.
  split; [|apply handle_keeps_organizations].
  intros body w. unfold onboard.
  destruct (_ || _) eqn:Hguard; [done|].
  apply onboard_guard_false in Hguard
    as (a & b & c & d & e & -> & ? & ? & ? & ? & ?).
  unfold tryCatch, await, Organization_create, store.
  destruct (storeFails OrganizationCreate); simpl; [done|].
  intros _. by exists a, b, c, d, e.
Qed.

Lemma onboard_creates_one_organization_witness :
  exists orgName brandGuide goals personas stylePreferences,
    mkOnboardBody (Some "Initech") (Some "Drab") (Some "TPS reports")
      (Some "Managers") (Some "Formal")
    = mkOnboardBody (Some orgName) (Some brandGuide) (Some goals)
        (Some personas) (Some stylePreferences)
    /\ orgName <> "" /\ brandGuide <> "" /\ goals <> ""
    /\ personas <> "" /\ stylePreferences <> ""
    /\ (onboard reliable
          (mkOnboardBody (Some "Initech") (Some "Drab") (Some "TPS reports")
             (Some "Managers") (Some "Formal")) world0).2
       = mkWorld
           (organizations world0 ++
            [Organization.mk orgName brandGuide goals personas
               stylePreferences])
           (prompts world0) (sent world0).
Proof.
  apply (proj1 (onboard_creates_one_organization reliable echo)
           (mkOnboardBody (Some "Initech") (Some "Drab") (Some "TPS reports")
              (Some "Managers") (Some "Formal")) world0).
  reflexivity.
Defined.

(** *** Generation *)

(** C7: a generation request whose two fields are present (supplied and
    non-empty) and whose [orgName] matches no Organization record is
    answered 404, provided the lookup itself completes; the store is
    left as it was (no Prompt record is created) and the provider is not
    called. *)
Theorem generate_unknown_organization storeFails complete orgName prompt w :
  orgName <> "" -> prompt <> "" ->
  storeFails OrganizationFindOne = false ->
  (forall org, org ∈ organizations w -> Organization.orgName org <> orgName) ->
  generate storeFails complete (mkGenerateBody (Some orgName) (Some prompt)) w
  = (json 404 (Error "Organization not found"), w).
Proof.
  intros Ho Hp Hstore Hnone.
  cbv beta zeta iota delta [generate generate_orgName generate_prompt].
  rewrite !not_present by done. simpl.
  unfold tryCatch, await, Organization_findOne, store. rewrite Hstore. simpl.
  assert (list_find (fun o => Organization.orgName o = orgName)
            (organizations w) = None) as ->; [|done].
  apply list_find_None, Forall_forall. auto.
Qed.

Lemma generate_unknown_organization_witness :
  generate reliable echo (mkGenerateBody (Some "Initech") (Some "slogan"))
    world0
  = (json 404 (Error "Organization not found"), world0).
Proof.
  apply (generate_unknown_organization reliable echo "Initech" "slogan"
           world0); try done.
  intros org Hin. apply list_elem_of_singleton in Hin as ->. done.
Defined.

Lemma generate_found storeFails complete orgName prompt w i org :
  orgName <> "" -> prompt <> "" ->
  storeFails OrganizationFindOne = false ->
  list_find (fun o => Organization.orgName o = orgName) (organizations w)
  = Some (i, org) ->
  generate storeFails complete (mkGenerateBody (Some orgName) (Some prompt)) w
  = tryCatch
      (content <~ openai_chat_completions_create complete
                    (completionRequest org prompt);
       _ <~ Prompt_create storeFails
              (Prompt.mk orgName prompt content None None);
       resolve (json 200 (Content content)))
      (json 500 (Error "Error generating content")) w.
Proof.
  intros Ho Hp Hstore Hfind.
  cbv beta zeta iota delta [generate generate_orgName generate_prompt].
  rewrite !not_present by done. simpl.
  unfold tryCatch, await at 1, Organization_findOne, store.
  rewrite Hstore, Hfind. reflexivity.
Qed.

(** C1: for a generation request whose two fields are present (supplied
    and non-empty) and whose [orgName] is that of an existing
    Organization, if the provider call succeeds returning the text [T]
    (and the store completes the lookup and the insertion), the answer is
    200 with body [{content: T}] and exactly one Prompt record is added
    to the store: it carries the request's [orgName] and [prompt], the
    content [T], and neither rating nor feedback.  Nothing else in the
    store changes. *)
Theorem generate_success storeFails complete orgName prompt T w :
  orgName <> "" -> prompt <> "" ->
  storeFails OrganizationFindOne = false ->
  storeFails PromptCreate = false ->
  (exists org, org ∈ organizations w /\ Organization.orgName org = orgName) ->
  (forall org, org ∈ organizations w -> Organization.orgName org = orgName ->
     complete (completionRequest org prompt) = Some T) ->
  exists request,
    generate storeFails complete (mkGenerateBody (Some orgName) (Some prompt)) w
    = (json 200 (Content T),
       mkWorld (organizations w)
         (prompts w ++ [Prompt.mk orgName prompt T None None])
         (sent w ++ [request])).
Proof.
  intros Ho Hp Hfind Hcreate (org0 & Hin & Hname) Hcomplete.
  destruct (list_find_elem_of (fun o => Organization.orgName o = orgName)
              (organizations w) org0 Hin Hname) as [[i org] Hfound].
  pose proof Hfound as (Hi & Horg & _)%list_find_Some.
  rewrite (generate_found _ _ _ _ _ i org) by done.
  exists (completionRequest org prompt).
  unfold tryCatch, await, openai_chat_completions_create, Prompt_create, store.
  rewrite (Hcomplete org), Hcreate; [done| |done].
  by eapply list_elem_of_lookup_2.
Qed.

Lemma generate_success_witness :
  exists request,
    generate reliable echo (mkGenerateBody (Some "Acme") (Some "motto")) world0
    = (json 200 (Content "Generated."),
       mkWorld (organizations world0)
         (prompts world0 ++ [Prompt.mk "Acme" "motto" "Generated." None None])
         (sent world0 ++ [request])).
Proof.
  apply (generate_success reliable echo "Acme" "motto" "Generated." world0);
    try done.
  exists acme. split; [apply list_elem_of_here | reflexivity].
Defined.

(** C3: whenever a generation request reaches the provider call (its two
    fields are present and the lookup returned an organization), exactly
    one request is sent: model [gpt-3.5-turbo], a system message that is
    the fixed template with the found organization's [brandGuide],
    [goals] and [stylePreferences] in its three slots, and the user's
    prompt.  The [personas] field is not used: organizations that agree
    on the other three fields get the same system instruction. *)
Theorem generate_system_instruction storeFails complete orgName prompt w i org :
  orgName <> "" -> prompt <> "" ->
  storeFails OrganizationFindOne = false ->
  list_find (fun o => Organization.orgName o = orgName) (organizations w)
  = Some (i, org) ->
  sent (generate storeFails complete
          (mkGenerateBody (Some orgName) (Some prompt)) w).2
  = sent w ++
    [Chat.mkRequest "gpt-3.5-turbo"
       [Chat.mkMessage "system"
          (instruction (Organization.brandGuide org) (Organization.goals org)
             (Organization.stylePreferences org));
        Chat.mkMessage "user" prompt]]
  /\ forall org',
       Organization.brandGuide org' = Organization.brandGuide org ->
       Organization.goals org' = Organization.goals org ->
       Organization.stylePreferences org' = Organization.stylePreferences org ->
       systemPrompt org' = systemPrompt org.
Proof.
  intros Ho Hp Hstore Hfound. split.
  - rewrite (generate_found _ _ _ _ _ i org) by done.
    unfold tryCatch, await, openai_chat_completions_create, Prompt_create,
      store.
    destruct (complete _); [|done].
    by destruct (storeFails PromptCreate).
  - intros org' Hb Hg Hs. unfold systemPrompt. by rewrite Hb, Hg, Hs.
Qed.

Lemma generate_system_instruction_witness :
  sent (generate reliable echo
          (mkGenerateBody (Some "Acme") (Some "motto")) world0).2
  = sent world0 ++
    [Chat.mkRequest "gpt-3.5-turbo"
       [Chat.mkMessage "system"
          (instruction (Organization.brandGuide acme) (Organization.goals acme)
             (Organization.stylePreferences acme));
        Chat.mkMessage "user" "motto"]]
  /\ forall org',
       Organization.brandGuide org' = Organization.brandGuide acme ->
       Organization.goals org' = Organization.goals acme ->
       Organization.stylePreferences org' = Organization.stylePreferences acme ->
       systemPrompt org' = systemPrompt acme.
Proof.
  apply (generate_system_instruction reliable echo "Acme" "motto" world0 0 acme);
    done.
Defined.

(** *** Rating *)

Lemma typeof_number v :
  typeof v = "number" <-> exists x, v = Some (JNumber x).
Proof.
  split.
  - destruct v as [[]|]; simpl; try done. eauto.
  - by intros (x & ->).
Qed.

Lemma rate_guard body :
  not_ (rate_orgName body) || not_ (rate_prompt body)
  || negb (String.eqb (typeof (rate_rating body)) "number") = true
  <-> missing (rate_orgName body) \/ missing (rate_prompt body)
      \/ typeof (rate_rating body) <> "number".
Proof.
  rewrite !orb_true_iff, !not_true, negb_true_iff.
  destruct (String.eqb_spec (typeof (rate_rating body)) "number");
    intuition congruence.
Qed.

Lemma rate_found storeFails orgName prompt x feedback w i entry :
  orgName <> "" -> prompt <> "" ->
  storeFails PromptFindOne = false ->
  storeFails PromptSave = false ->
  list_find (fun p => Prompt.orgName p = orgName /\ Prompt.prompt p = prompt)
    (prompts w) = Some (i, entry) ->
  rate storeFails
    (mkRateBody (Some orgName) (Some prompt) (Some (JNumber x)) feedback) w
  = (json 200 (Message "Feedback recorded"),
     mkWorld (organizations w)
       (<[i := Prompt.mk (Prompt.orgName entry) (Prompt.prompt entry)
                 (Prompt.content entry) (Some x) feedback]> (prompts w))
       (sent w)).
Proof.
  intros Ho Hp Hfind Hsave Hfound.
  cbv beta zeta iota delta
    [rate rate_orgName rate_prompt rate_rating rate_feedback].
  rewrite !not_present by done. simpl.
  unfold tryCatch, await, Prompt_findOne, Prompt_save, store.
  rewrite Hfind, Hfound. simpl. by rewrite Hsave.
Qed.

(** C6: a rating request is answered 400 exactly when [orgName] or
    [prompt] is missing (absent or empty, the cases the handler reports
    as missing) or [rating] is not a number; a request that passes this
    check and whose ([orgName], [prompt]) pair equals that of no Prompt
    record is answered 404, provided the lookup itself completes; and
    whenever the answer is 400 or 404 the store is left as it was. *)
Theorem rate_rejections storeFails body w :
  (status (rate storeFails body w).1 = 400%Z
   <-> missing (rate_orgName body) \/ missing (rate_prompt body)
       \/ typeof (rate_rating body) <> "number")
  /\ (forall orgName prompt x,
        rate_orgName body = Some orgName -> orgName <> "" ->
        rate_prompt body = Some prompt -> prompt <> "" ->
        rate_rating body = Some (JNumber x) ->
        storeFails PromptFindOne = false ->
        (forall p, p ∈ prompts w ->
           ~ (Prompt.orgName p = orgName /\ Prompt.prompt p = prompt)) ->
        rate storeFails body w
        = (json 404 (Error "Prompt not found for this organization"), w))
  /\ (status (rate storeFails body w).1 = 400%Z
      \/ status (rate storeFails body w).1 = 404%Z ->
      (rate storeFails body w).2 = w).
Proof.
  unfold rate. destruct (_ || _) eqn:Hg.
  - apply rate_guard in Hg. split; [|split].
    + done.
    + intros o p x Ho Hne Hp Hne' Hr. exfalso.
      destruct Hg as [H|[H|H]].
      * rewrite Ho in H. destruct H; congruence.
      * rewrite Hp in H. destruct H; congruence.
      * by rewrite Hr in H.
    + done.
  - assert (~ (missing (rate_orgName body) \/ missing (rate_prompt body)
               \/ typeof (rate_rating body) <> "number")) as Hvalid.
    { intros H. apply rate_guard in H. congruence. }
    unfold tryCatch, await, Prompt_findOne, Prompt_save, store.
    split; [|split].
    + split; [|done].
      destruct (storeFails PromptFindOne); [done|]. simpl.
      destruct (list_find _ _) as [[i entry]|]; [|done]. simpl.
      by destruct (storeFails PromptSave).
    + intros o p x Ho Hne Hp Hne' Hr Hstore Hnone.
      rewrite Hstore, Ho, Hp. simpl.
      assert (list_find
                (fun q => Prompt.orgName q = o /\ Prompt.prompt q = p)
                (prompts w) = None) as ->; [|done].
      apply list_find_None, Forall_forall. auto.
    + destruct (storeFails PromptFindOne); [done|]. simpl.
      destruct (list_find _ _) as [[i entry]|]; [|done]. simpl.
      destruct (storeFails PromptSave); simpl; intros [?|?]; done.
Qed.

Lemma rate_rejections_witness :
  rate reliable
    (mkRateBody (Some "Acme") (Some "jingle") (Some (JNumber 5)) None) world0
  = (json 404 (Error "Prompt not found for this organization"), world0).
Proof.
  apply (proj1 (proj2 (rate_rejections reliable
           (mkRateBody (Some "Acme") (Some "jingle") (Some (JNumber 5)) None)
           world0)) "Acme" "jingle" 5%float); try done.
  intros p Hin [_ Hp]. unfold world0, acmePrompts in Hin. simpl in Hin.
  repeat (apply elem_of_cons in Hin as [->|Hin]; [done|]).
  by apply elem_of_nil in Hin.
Defined.

(** C10: a valid rating request that finds a matching Prompt record
    changes that record's [rating] and [feedback] and nothing else: its
    [orgName], [prompt] and [content] stay, every other Prompt record,
    the organizations and the number of records stay, and the record's
    feedback becomes the request's feedback even when the request has
    none, in which case the stored feedback is erased. *)
Theorem rate_changes_rating_and_feedback_only
    storeFails orgName prompt x feedback w i entry :
  orgName <> "" -> prompt <> "" ->
  storeFails PromptFindOne = false ->
  storeFails PromptSave = false ->
  list_find (fun p => Prompt.orgName p = orgName /\ Prompt.prompt p = prompt)
    (prompts w) = Some (i, entry) ->
  let w' :=
    (rate storeFails
       (mkRateBody (Some orgName) (Some prompt) (Some (JNumber x)) feedback)
       w).2 in
  organizations w' = organizations w
  /\ sent w' = sent w
  /\ length (prompts w') = length (prompts w)
  /\ (forall j, j <> i -> prompts w' !! j = prompts w !! j)
  /\ exists entry',
       prompts w' !! i = Some entry'
       /\ Prompt.orgName entry' = Prompt.orgName entry
       /\ Prompt.prompt entry' = Prompt.prompt entry
       /\ Prompt.content entry' = Prompt.content entry
       /\ Prompt.rating entry' = Some x
       /\ Prompt.feedback entry' = feedback
       /\ (feedback = None -> Prompt.feedback entry' = None).
Proof.
  intros Ho Hp Hfind Hsave Hfound w'. subst w'.
  rewrite (rate_found _ _ _ _ _ _ i entry) by done. simpl.
  pose proof Hfound as (Hi & _)%list_find_Some.
  split; [done|]. split; [done|]. split; [apply length_insert|].
  split; [intros j Hj; by apply list_lookup_insert_ne|].
  eexists. split.
  - apply list_lookup_insert_eq. by eapply lookup_lt_Some.
  - done.
Qed.

Lemma rate_changes_rating_and_feedback_only_witness :
  exists entry',
    prompts (rate reliable
               (mkRateBody (Some "Acme") (Some "slogan") (Some (JNumber 1))
                  None) world0).2 !! 0 = Some entry'
    /\ Prompt.content entry' = "Anvils that land."
    /\ Prompt.rating entry' = Some 1%float
    /\ Prompt.feedback entry' = None.
Proof.
  destruct (rate_changes_rating_and_feedback_only reliable "Acme" "slogan"
              1%float None world0 0
              (Prompt.mk "Acme" "slogan" "Anvils that land." (Some 4%float)
                 (Some "good")))
    as (_ & _ & _ & _ & entry' & H0 & _ & _ & Hc & Hr & Hf & _); try done.
  exists entry'. done.
Defined.

(** *** Analytics *)

Lemma slice_last5 {A} (l : list A) :
  slice (-5) l = drop (length l - 5) l.
Proof.
  unfold slice. simpl. f_equal. lia.
Qed.

Lemma analytics_found storeFails orgName w :
  storeFails PromptFind = false ->
  filter (fun p => Prompt.orgName p = orgName) (prompts w) <> [] ->
  analytics storeFails orgName w
  = (json 200
       (Analytics
          (length (filter (fun p => Prompt.orgName p = orgName) (prompts w)))
          (toFixed
             (avgRating
                (filter (fun p => Prompt.orgName p = orgName) (prompts w))) 2)
          (feedbackOf <$>
             slice (-5)
               (filter (fun p => Prompt.orgName p = orgName) (prompts w)))),
     w).
Proof.
  intros Hstore Hne.
  unfold analytics, tryCatch, await, Prompt_find, store. rewrite Hstore.
  simpl. destruct (filter _ _); done.
Qed.

(** C9: an analytics request, provided the retrieval itself completes,
    is answered 404 when no Prompt record has the requested [orgName];
    otherwise it is answered 200, [totalGenerated] is the number of
    matching records, and [last5Feedbacks] is made from the last five
    records in the store's retrieval order (all of them when there are
    fewer): its length is [min 5 totalGenerated], and each entry holds
    exactly the [prompt], [rating] and [feedback] of its record. *)
Theorem analytics_last5 storeFails orgName w :
  storeFails PromptFind = false ->
  let found := filter (fun p => Prompt.orgName p = orgName) (prompts w) in
  (found = [] ->
   analytics storeFails orgName w
   = (json 404 (Error "No data found for this organization"), w))
  /\ (found <> [] ->
      exists older recent,
        found = older ++ recent
        /\ length recent = Nat.min 5 (length found)
        /\ analytics storeFails orgName w
           = (json 200
                (Analytics (length found) (toFixed (avgRating found) 2)
                   ((fun p => mkFeedback (Prompt.prompt p) (Prompt.rating p)
                                (Prompt.feedback p)) <$> recent)),
              w)).
Proof.
  intros Hstore found. split.
  - intros Hnone.
    unfold analytics, tryCatch, await, Prompt_find, store. rewrite Hstore.
    simpl. fold found. by rewrite Hnone.
  - intros Hsome.
    exists (take (length found - 5) found), (drop (length found - 5) found).
    split; [by rewrite take_drop|]. split; [rewrite length_drop; lia|].
    rewrite analytics_found by done. fold found. by rewrite slice_last5.
Qed.

Lemma analytics_last5_witness :
  analytics reliable "Initech" world0
  = (json 404 (Error "No data found for this organization"), world0).
Proof.
  apply (proj1 (analytics_last5 reliable "Initech" world0 eq_refl)).
  reflexivity.
Defined.

(** *** Decimal digits and [toFixed(2)] *)

Lemma decimalFuel_enough k k' n :
  (0 <= n < 2 ^ Z.of_nat (S k))%Z -> (n < 2 ^ Z.of_nat (S k'))%Z ->
  decimalFuel (S k) n = decimalFuel (S k') n.
Proof.
  revert k' n. induction k as [|k IH]; intros k' n Hk Hk'.
  - assert ((n <? 10)%Z = true) as Hn by (apply Z.ltb_lt; simpl in Hk; lia).
    simpl. by rewrite Hn.
  - cbn [decimalFuel]. destruct (Z.ltb_spec n 10) as [|Hn]; [done|].
    f_equal.
    assert (1 <= n / 10)%Z by (apply Z.div_le_lower_bound; lia).
    assert (n / 10 < 2 ^ Z.of_nat (S k))%Z.
    { apply Z.div_lt_upper_bound; [lia|].
      rewrite (Nat2Z.inj_succ (S k)), Z.pow_succ_r in Hk by lia. lia. }
    destruct k' as [|k'].
    { simpl in Hk'. lia. }
    apply IH; [lia|].
    apply Z.div_lt_upper_bound; [lia|].
    rewrite (Nat2Z.inj_succ (S k')), Z.pow_succ_r in Hk' by lia. lia.
Qed.

Lemma decimal_fuel n :
  (0 <= n)%Z -> (n < 2 ^ Z.of_nat (S (Z.to_nat (Z.log2 n))))%Z.
Proof.
  intros Hn. rewrite Nat2Z.inj_succ, Z2Nat.id by apply Z.log2_nonneg.
  destruct (Z.eq_dec n 0%Z) as [->|]; [done|].
  apply Z.log2_spec. lia.
Qed.

Lemma decimal_unfold n :
  (0 <= n)%Z ->
  decimal n
  = (if (n <? 10)%Z then [] else decimal (n / 10)) ++ [digit (n mod 10)].
Proof.
  intros Hn. unfold decimal at 1. cbn [decimalFuel].
  destruct (Z.ltb_spec n 10) as [|Hge]; [done|]. f_equal.
  pose proof (decimal_fuel n Hn) as Hfuel.
  assert (1 <= n / 10)%Z by (apply Z.div_le_lower_bound; lia).
  assert (n / 10 < 2 ^ Z.of_nat (Z.to_nat (Z.log2 n)))%Z as Hdiv.
  { apply Z.div_lt_upper_bound; [lia|].
    rewrite Nat2Z.inj_succ, Z.pow_succ_r in Hfuel by lia. lia. }
  destruct (Z.to_nat (Z.log2 n)) as [|k]; [simpl in Hdiv; lia|].
  unfold decimal. apply decimalFuel_enough; [lia|].
  apply decimal_fuel. lia.
Qed.

Lemma decimal_digit n : (0 <= n < 10)%Z -> decimal n = [digit n].
Proof.
  intros Hn. rewrite decimal_unfold by lia.
  destruct (Z.ltb_spec n 10); [|lia]. by rewrite Z.mod_small.
Qed.

Lemma decimal_length n : (0 <= n)%Z -> (1 <= length (decimal n))%nat.
Proof.
  intros Hn. rewrite decimal_unfold, length_app by done. simpl. lia.
Qed.

(** With two fraction digits: the integer part, a point, and the tenths
    and hundredths digits. *)
Lemma fixedDigits_2 n :
  (0 <= n)%Z ->
  fixedDigits 2 n
  = decimal (n / 100) ++
    ["."%char; digit (n / 10 mod 10); digit (n mod 10)].
Proof.
  intros Hn. unfold fixedDigits. cbn [Nat.eqb].
  destruct (Z.lt_ge_cases n 10) as [H10|H10];
    [|destruct (Z.lt_ge_cases n 100) as [H100|H100]].
  - rewrite (decimal_digit n), (Z.div_small n 100), (Z.div_small n 10),
      (Z.mod_small n 10) by lia.
    reflexivity.
  - rewrite (decimal_unfold n) by lia.
    destruct (Z.ltb_spec n 10); [lia|].
    assert (0 <= n / 10 < 10)%Z.
    { split; [apply Z.div_pos; lia|apply Z.div_lt_upper_bound; lia]. }
    rewrite (decimal_digit (n / 10)), (Z.div_small n 100), (Z.mod_small (n / 10))
      by lia.
    reflexivity.
  - assert (decimal n
            = decimal (n / 100) ++ [digit (n / 10 mod 10); digit (n mod 10)])
      as ->.
    { rewrite (decimal_unfold n) by lia.
      destruct (Z.ltb_spec n 10); [lia|].
      assert (10 <= n / 10)%Z by (apply Z.div_le_lower_bound; lia).
      rewrite (decimal_unfold (n / 10)) by lia.
      destruct (Z.ltb_spec (n / 10) 10); [lia|].
      rewrite Z.div_div by lia. by rewrite <- app_assoc. }
    pose proof (decimal_length (n / 100) ltac:(apply Z.div_pos; lia)) as Hlen.
    set (whole := decimal (n / 100)) in *.
    set (frac := [digit (n / 10 mod 10); digit (n mod 10)]).
    assert (length (whole ++ frac) = length whole + 2)%nat as Hsum
      by apply length_app.
    destruct (Nat.leb_spec (length (whole ++ frac)) 2); [lia|].
    cbv zeta. rewrite Hsum.
    replace (length whole + 2 - 2)%nat with (length whole) by lia.
    by rewrite take_app_length, drop_app_length.
Qed.

Lemma value_pos m e : (0 < value m e)%Q.
Proof.
  unfold value. apply Qmult_lt_0_compat; [done|].
  by apply Qpower_0_lt.
Qed.

Lemma nearest_2 x :
  (0 <= x)%Q ->
  (0 <= nearest 2 x)%Z
  /\ (Qabs (inject_Z (nearest 2 x) / 100 - x) <= 1 # 200)%Q.
Proof.
  intros Hx. unfold nearest.
  change (10 ^ Z.of_nat 2)%Q with (100 # 1).
  set (y := (x * (100 # 1) + (1 # 2))%Q).
  pose proof (Qfloor_le y) as Hle. pose proof (Qlt_floor y) as Hlt.
  rewrite inject_Z_plus in Hlt. change (inject_Z 1) with 1%Q in Hlt.
  split.
  - assert (0 <= y)%Q by (unfold y; lra).
    change 0%Z with (Qfloor 0). by apply Qfloor_resp_le.
  - apply Qabs_Qle_condition. unfold y in *.
    generalize dependent (inject_Z (Qfloor (x * (100 # 1) + (1 # 2)))).
    intros z Hle Hlt. unfold Qdiv. change (/ 100)%Q with (1 # 100).
    split; lra.
Qed.

Lemma isDigit_digit d : (0 <= d < 10)%Z -> isDigit (digit d) = true.
Proof.
  intros Hd.
  assert (d = 0 \/ d = 1 \/ d = 2 \/ d = 3 \/ d = 4 \/ d = 5 \/ d = 6
          \/ d = 7 \/ d = 8 \/ d = 9)%Z as Hcases by lia.
  repeat destruct Hcases as [->|Hcases]; try reflexivity.
  by subst.
Qed.

Lemma decimalFuel_digits k n :
  (0 <= n)%Z -> forallb isDigit (decimalFuel k n) = true.
Proof.
  revert n. induction k as [|k IH]; intros n Hn; [done|].
  cbn [decimalFuel]. rewrite forallb_app. apply andb_true_iff. split.
  - destruct (n <? 10)%Z; [reflexivity|]. apply IH. apply Z.div_pos; lia.
  - cbn [forallb]. rewrite isDigit_digit; [reflexivity|].
    apply Z.mod_pos_bound. lia.
Qed.

Lemma wholeThenFraction_intro whole d1 d2 :
  whole <> [] -> forallb isDigit whole = true ->
  isDigit d1 = true -> isDigit d2 = true ->
  wholeThenFraction (whole ++ ["."%char; d1; d2]) = true.
Proof.
  intros Hne Hwhole H1 H2. unfold wholeThenFraction.
  rewrite rev_app_distr. simpl.
  assert (forallb isDigit (rev whole) = true) as Hrev.
  { apply forallb_forall. intros c Hc%in_rev.
    by eapply forallb_forall in Hwhole. }
  destruct (rev whole) as [|c cs] eqn:Hr.
  - apply (f_equal (@rev ascii)) in Hr. rewrite rev_involutive in Hr. done.
  - by rewrite H1, H2, Hrev.
Qed.

(** The text that [toFixed(2)] makes of the hundredths count [n] has
    exactly two decimal places. *)
Lemma twoDecimalPlaces_fixed negative n :
  (0 <= n)%Z ->
  twoDecimalPlaces
    (string_of_list_ascii (sign negative ++ fixedDigits 2 n)) = true.
Proof.
  intros Hn. rewrite fixedDigits_2 by done.
  assert (0 <= n / 100)%Z as Hwhole by (apply Z.div_pos; lia).
  pose proof (decimal_length _ Hwhole) as Hlen.
  assert (wholeThenFraction
            (decimal (n / 100) ++
             ["."%char; digit (n / 10 mod 10); digit (n mod 10)]) = true)
    as Hshape.
  { apply wholeThenFraction_intro.
    - intros Hnil. rewrite Hnil in Hlen. simpl in Hlen. lia.
    - by apply decimalFuel_digits.
    - apply isDigit_digit, Z.mod_pos_bound. lia.
    - apply isDigit_digit, Z.mod_pos_bound. lia. }
  unfold twoDecimalPlaces. rewrite list_ascii_of_string_of_list_ascii.
  destruct negative; simpl sign.
  - done.
  - simpl app at 1.
    destruct (decimal (n / 100)) as [|c cs] eqn:Hd; [simpl in Hlen; lia|].
    assert (isDigit c = true) as Hc.
    { pose proof (decimalFuel_digits (S (Z.to_nat (Z.log2 (n / 100))))
                    (n / 100) Hwhole) as Hall.
      fold (decimal (n / 100)) in Hall. rewrite Hd in Hall.
      simpl in Hall. by apply andb_true_iff in Hall as [? _]. }
    destruct (Ascii.eqb c "-"%char) eqn:Hminus.
    { apply Ascii.eqb_eq in Hminus. subst c. discriminate Hc. }
    change ((if Ascii.eqb c "-"%char
             then wholeThenFraction
                    (cs ++ ["."%char; digit (n / 10 mod 10); digit (n mod 10)])
             else wholeThenFraction
                    ((c :: cs) ++
                     ["."%char; digit (n / 10 mod 10); digit (n mod 10)]))
            = true).
    by rewrite Hminus.
Qed.

Lemma toFixed_2 x negative q :
  real x = Some (negative, q) -> (q < 10 ^ 21)%Q ->
  (0 <= q)%Q
  /\ toFixed x 2
     = string_of_list_ascii (sign negative ++ fixedDigits 2 (nearest 2 q)).
Proof.
  unfold real, toFixed. destruct (Prim2SF x) as [s| | |s m e]; try done.
  - intros [= <- <-] _. done.
  - intros [= <- <-] Hlt. split; [apply Qlt_le_weak, value_pos|].
    destruct (Qle_bool (10 ^ 21) (value m e)) eqn:Hbig; [|done].
    apply Qle_bool_iff in Hbig. by apply Qlt_not_le in Hlt.
Qed.

Lemma avgRating_mean prompts : avgRating prompts = mean (counted <$> prompts).
Proof.
  unfold avgRating, mean. by rewrite foldl_fmap, length_fmap.
Qed.

(** *** Numbers up to the sign of zero *)

Lemma alike_refl a : alike a a.
Proof. by left. Qed.

Lemma is_zero_spec x :
  PrimFloat.is_zero x = true -> exists s, Prim2SF x = S754_zero s.
Proof.
  unfold PrimFloat.is_zero. rewrite FloatAxioms.eqb_spec.
  change (Prim2SF zero) with (S754_zero false).
  destruct (Prim2SF x) as [s|s| |s m e]; try done; [eauto| |];
    by destruct s.
Qed.

Lemma orZero_alike r :
  (forall x, r = Some x -> PrimFloat.is_nan x = false) ->
  alike (Prim2SF (orZero r))
    (Prim2SF match r with Some x => x | None => 0%float end).
Proof.
  intros Hnan. destruct r as [x|]; [|apply alike_refl].
  unfold orZero. rewrite (Hnan x eq_refl). cbn [orb].
  destruct (PrimFloat.is_zero x) eqn:Hzero; [|apply alike_refl].
  apply is_zero_spec in Hzero as [s Hs]. right. exists false, s.
  split; [reflexivity|exact Hs].
Qed.

Lemma SFadd_alike a a' b b' :
  alike a a' -> alike b b' ->
  alike (SF64add a b) (SF64add a' b').
Proof.
  intros [->|(sa & sa' & -> & ->)] [->|(sb & sb' & -> & ->)].
  - apply alike_refl.
  - destruct a' as [s|s| |s m e]; try apply alike_refl.
    right. destruct s, sb, sb'; cbn; eauto.
  - destruct b' as [s|s| |s m e]; try apply alike_refl.
    right. destruct s, sa, sa'; cbn; eauto.
  - right. destruct sa, sa', sb, sb'; cbn; eauto.
Qed.

Lemma SFdiv_alike a a' b :
  alike a a' -> alike (SF64div a b) (SF64div a' b).
Proof.
  intros [->|(sa & sa' & -> & ->)]; [apply alike_refl|].
  destruct b as [s|s| |s m e]; cbn; try apply alike_refl; right; eauto.
Qed.

Lemma foldl_add_alike (xs ys : list float) a b :
  alike (Prim2SF a) (Prim2SF b) ->
  Forall2 (fun x y => alike (Prim2SF x) (Prim2SF y)) xs ys ->
  alike (Prim2SF (foldl PrimFloat.add a xs))
    (Prim2SF (foldl PrimFloat.add b ys)).
Proof.
  intros Hab Hall. revert a b Hab.
  induction Hall as [|x y xs ys Hxy _ IH]; intros a b Hab; [done|].
  cbn [foldl]. apply IH. rewrite !add_spec. by apply SFadd_alike.
Qed.

Lemma mean_alike (xs ys : list float) :
  Forall2 (fun x y => alike (Prim2SF x) (Prim2SF y)) xs ys ->
  alike (Prim2SF (mean xs)) (Prim2SF (mean ys)).
Proof.
  intros Hall. unfold mean. rewrite !div_spec.
  rewrite (Forall2_length _ _ _ Hall).
  apply SFdiv_alike, foldl_add_alike; [apply alike_refl|done].
Qed.

Lemma toFixed_alike x y f :
  alike (Prim2SF x) (Prim2SF y) -> toFixed x f = toFixed y f.
Proof.
  intros [Heq|(s & s' & Hx & Hy)].
  - by apply Prim2SF_inj in Heq as ->.
  - unfold toFixed. by rewrite Hx, Hy.
Qed.

(** The handler's average is the mean of the ratings, an unset rating
    counting for 0, up to the sign of a zero. *)
Lemma avgRating_ratingOrZero prompts :
  ratingsAreNumbers prompts ->
  toFixed (avgRating prompts) 2 = toFixed (mean (ratingOrZero <$> prompts)) 2.
Proof.
  intros Hnum. apply toFixed_alike. rewrite avgRating_mean.
  apply mean_alike. apply Forall2_fmap, Forall_Forall2_diag.
  eapply Forall_impl; [exact Hnum|].
  intros p Hp. apply (orZero_alike (Prompt.rating p)), Hp.
Qed.

Lemma toFixed_not_finite x :
  real x = None ->
  toFixed x 2 = "NaN" \/ toFixed x 2 = "Infinity" \/ toFixed x 2 = "-Infinity".
Proof.
  unfold real, toFixed, Number_toString.
  destruct (Prim2SF x) as [s|s| |s m e]; try done; intros _.
  - destruct s; auto.
  - auto.
Qed.

(** Below 10^21 the text of [toFixed(2)] has two decimal places and is
    the hundredths count nearest to the number. *)
Lemma toFixed_hundredths x negative q :
  real x = Some (negative, q) -> (q < 10 ^ 21)%Q ->
  twoDecimalPlaces (toFixed x 2) = true
  /\ exists n,
       (0 <= n)%Z
       /\ (Qabs (inject_Z n / 100 - q) <= 1 # 200)%Q
       /\ toFixed x 2
          = string_of_list_ascii
              (sign negative ++ decimal (n / 100) ++
               ["."%char; digit (n / 10 mod 10); digit (n mod 10)]).
Proof.
  intros Hreal Hsmall.
  destruct (toFixed_2 _ _ _ Hreal Hsmall) as [Hq ->].
  destruct (nearest_2 q Hq) as [Hn Hnear].
  split; [by apply twoDecimalPlaces_fixed|].
  exists (nearest 2 q). by rewrite fixedDigits_2.
Qed.

(** *** The average rating *)

(** C2, as the code has it: for a non-empty list of Prompt records
    matching the requested [orgName], none of whose ratings is NaN (and
    a retrieval that completes), [totalGenerated] is their number and
    [averageRating] is [toFixed(2)] of their arithmetic mean in double
    arithmetic, a record counting for its rating if set and for 0
    otherwise.  Whenever that mean is finite and below 10^21 in
    magnitude, the text has exactly two decimal places and is the mean
    rounded to the nearest hundredth: an optional minus sign, the digits
    of [n / 100], a point and the two digits of [n mod 100], where
    [n / 100] is within 0.005 of the magnitude.  A mean that is not
    finite is reported as "NaN", "Infinity" or "-Infinity".  For the
    ratings [4, unset, 2] the answer has [totalGenerated = 3] and
    [averageRating = "2.00"]. *)
Theorem analytics_average storeFails orgName w :
  storeFails PromptFind = false ->
  let found := filter (fun p => Prompt.orgName p = orgName) (prompts w) in
  found <> [] ->
  ratingsAreNumbers found ->
  let average := mean (ratingOrZero <$> found) in
  (exists last5,
     analytics storeFails orgName w
     = (json 200 (Analytics (length found) (toFixed average 2) last5), w))
  /\ (forall negative q,
        real average = Some (negative, q) ->
        (q < 10 ^ 21)%Q ->
        twoDecimalPlaces (toFixed average 2) = true
        /\ exists n,
             (0 <= n)%Z
             /\ (Qabs (inject_Z n / 100 - q) <= 1 # 200)%Q
             /\ toFixed average 2
                = string_of_list_ascii
                    (sign negative ++ decimal (n / 100) ++
                     ["."%char; digit (n / 10 mod 10); digit (n mod 10)]))
  /\ (real average = None ->
      toFixed average 2 = "NaN" \/ toFixed average 2 = "Infinity"
      \/ toFixed average 2 = "-Infinity")
  /\ (forall p1 p2 p3,
        found = [p1; p2; p3] ->
        Prompt.rating p1 = Some 4%float ->
        Prompt.rating p2 = None ->
        Prompt.rating p3 = Some 2%float ->
        length found = 3%nat /\ toFixed average 2 = "2.00").
Proof.
  intros Hstore found Hsome Hnumbers average. split; [|split; [|split]].
  - eexists. rewrite analytics_found by done. fold found.
    by rewrite avgRating_ratingOrZero.
  - apply toFixed_hundredths.
  - apply toFixed_not_finite.
  - intros p1 p2 p3 Hfound H1 H2 H3. subst average. rewrite Hfound.
    split; [reflexivity|].
    unfold ratingOrZero. cbn [fmap list_fmap]. rewrite H1, H2, H3.
    vm_compute. reflexivity.
Qed.

Lemma analytics_average_witness :
  length (filter (fun p => Prompt.orgName p = "Acme") (prompts world0)) = 3%nat
  /\ toFixed
       (mean (ratingOrZero <$>
                filter (fun p => Prompt.orgName p = "Acme") (prompts world0)))
       2 = "2.00".
Proof.
  refine (proj2 (proj2 (proj2
            (analytics_average reliable "Acme" world0 eq_refl _ _)))
            (Prompt.mk "Acme" "slogan" "Anvils that land." (Some 4%float)
               (Some "good"))
            (Prompt.mk "Acme" "tagline" "Gravity works." None None)
            (Prompt.mk "Acme" "slogan" "Drop it." (Some 2%float) None)
            eq_refl eq_refl eq_refl eq_refl).
  - discriminate.
  - repeat constructor; intros x [= <-]; reflexivity.
Defined.

(** C2 as stated fails for large ratings: with a single record rated
    1e21 (a rating the handler accepts, there being no range check) the
    answer's [averageRating] is ["1e+21"], which does not have two
    decimal places. *)
Lemma analytics_average_not_two_decimals :
  analytics reliable "Acme" world21
  = (json 200
       (Analytics 1 "1e+21" [mkFeedback "slogan" (Some 1e21%float) None]),
     world21)
  /\ twoDecimalPlaces "1e+21" = false.
Proof.
  split; vm_compute; reflexivity.
Qed.

(** *** Rating, then analytics *)

Lemma filter_insert_match {A} (F : A -> Prop) `{forall a, Decision (F a)}
    (l : list A) i a a' :
  l !! i = Some a -> F a -> F a' ->
  filter F l = filter F (take i l) ++ a :: filter F (drop (S i) l)
  /\ filter F (<[i := a']> l)
     = filter F (take i l) ++ a' :: filter F (drop (S i) l).
Proof.
  intros Hi Ha Ha'. split.
  - rewrite <- (take_drop_middle l i a Hi) at 1.
    by rewrite filter_app, filter_cons_True.
  - rewrite insert_take_drop by (by eapply lookup_lt_Some).
    by rewrite filter_app, filter_cons_True.
Qed.

Lemma list_find_insert_same {A} (P : A -> Prop) `{forall a, Decision (P a)}
    (l : list A) i a a' :
  list_find P l = Some (i, a) -> P a' ->
  list_find P (<[i := a']> l) = Some (i, a').
Proof.
  intros (Hi & Ha & Hfirst)%list_find_Some Ha'.
  apply list_find_Some. split; [|split; [done|]].
  - apply list_lookup_insert_eq. by eapply lookup_lt_Some.
  - intros j y Hj Hlt. rewrite list_lookup_insert_ne in Hj by lia. eauto.
Qed.

(** C4: a valid rating request that matches a Prompt record sets that
    record's [rating] and [feedback] to the request's values, and an
    analytics request for the same [orgName] made afterwards reflects
    them: the matching records are the same ones in the same order,
    [last5Feedbacks] lists the [prompt], [rating] and [feedback] of the
    last five of them, the rated one (when among these) with the new
    rating and feedback, and, the ratings being numbers,
    [averageRating] is [toFixed(2)] of the mean of their ratings with
    the new rating in the place of the old one (an unset rating
    counting for 0), hence within 0.005 of that mean when it is finite
    and below 10^21.  A second valid rating request for the same
    ([orgName], [prompt]) pair ends exactly as if the first had never
    been made: the record holds the second request's rating and
    feedback only (last write wins). *)
Theorem rate_last_write_wins storeFails orgName prompt x feedback w i entry :
  orgName <> "" -> prompt <> "" ->
  storeFails PromptFindOne = false ->
  storeFails PromptSave = false ->
  storeFails PromptFind = false ->
  list_find (fun p => Prompt.orgName p = orgName /\ Prompt.prompt p = prompt)
    (prompts w) = Some (i, entry) ->
  let rated r f :=
    Prompt.mk (Prompt.orgName entry) (Prompt.prompt entry)
      (Prompt.content entry) (Some r) f in
  let request r f :=
    mkRateBody (Some orgName) (Some prompt) (Some (JNumber r)) f in
  let w1 := (rate storeFails (request x feedback) w).2 in
  prompts w1 !! i = Some (rated x feedback)
  /\ (exists before after,
        filter (fun p => Prompt.orgName p = orgName) (prompts w)
        = before ++ entry :: after
        /\ let records := before ++ rated x feedback :: after in
           let ratings :=
             (ratingOrZero <$> before) ++ x :: (ratingOrZero <$> after) in
           exists average last5,
             analytics storeFails orgName w1
             = (json 200 (Analytics (length records) average last5), w1)
             /\ last5
                = (fun p => mkFeedback (Prompt.prompt p) (Prompt.rating p)
                              (Prompt.feedback p))
                  <$> drop (length records - 5) records
             /\ ((length after < 5)%nat ->
                 mkFeedback prompt (Some x) feedback ∈ last5)
             /\ (PrimFloat.is_nan x = false ->
                 ratingsAreNumbers before -> ratingsAreNumbers after ->
                 average = toFixed (mean ratings) 2
                 /\ forall negative q,
                      real (mean ratings) = Some (negative, q) ->
                      (q < 10 ^ 21)%Q ->
                      exists n,
                        (0 <= n)%Z
                        /\ (Qabs (inject_Z n / 100 - q) <= 1 # 200)%Q
                        /\ average
                           = string_of_list_ascii
                               (sign negative ++ decimal (n / 100) ++
                                ["."%char; digit (n / 10 mod 10);
                                 digit (n mod 10)])))
  /\ (forall x2 feedback2,
        rate storeFails (request x2 feedback2) w1
        = rate storeFails (request x2 feedback2) w
        /\ prompts (rate storeFails (request x2 feedback2) w1).2 !! i
           = Some (rated x2 feedback2)).
Proof.
  intros Ho Hp Hfind Hsave Hall Hfound rated request w1.
  pose proof Hfound as (Hi & [Hname Hprompt] & _)%list_find_Some.
  assert (i < length (prompts w)) as Hlt by (by eapply lookup_lt_Some).
  assert (w1 = mkWorld (organizations w)
                 (<[i := rated x feedback]> (prompts w)) (sent w)) as Hw1.
  { unfold w1, request. by rewrite (rate_found _ _ _ _ _ _ i entry). }
  clearbody w1. subst w1. simpl.
  split; [|split].
  - by apply list_lookup_insert_eq.
  - destruct (filter_insert_match (fun p => Prompt.orgName p = orgName)
                (prompts w) i entry (rated x feedback) Hi Hname Hname)
      as [Hbefore Hafter].
    set (before := filter _ (take i (prompts w))) in *.
    set (after := filter _ (drop (S i) (prompts w))) in *.
    exists before, after. split; [exact Hbefore|].
    set (records := before ++ rated x feedback :: after).
    eexists _, _. split; [|split; [|split]].
    + rewrite analytics_found; simpl; rewrite ?Hafter; [|done|].
      * fold records. rewrite slice_last5. reflexivity.
      * by destruct before.
    + reflexivity.
    + intros Hafter5. apply list_elem_of_fmap.
      exists (rated x feedback). split; [by rewrite <- Hprompt|].
      apply list_elem_of_lookup.
      exists (length before - (length records - 5))%nat.
      rewrite lookup_drop.
      apply list_lookup_middle.
      unfold records. rewrite length_app. simpl. lia.
    + intros Hx Hnb Hna.
      assert (toFixed (avgRating records) 2
              = toFixed
                  (mean ((ratingOrZero <$> before) ++
                         x :: (ratingOrZero <$> after))) 2) as ->.
      { rewrite avgRating_ratingOrZero.
        - unfold records. by rewrite fmap_app.
        - apply Forall_app. split; [done|]. apply Forall_cons.
          split; [|done]. by intros y [= <-]. }
      split; [reflexivity|].
      intros negative q Hreal Hsmall.
      by destruct (toFixed_hundredths _ _ _ Hreal Hsmall) as [_ ?].
  - intros x2 feedback2. unfold request.
    rewrite (rate_found _ _ _ _ _
               (mkWorld (organizations w)
                  (<[i := rated x feedback]> (prompts w)) (sent w))
               i (rated x feedback)); try done.
    + rewrite (rate_found _ _ _ _ _ w i entry) by done.
      simpl. rewrite list_insert_insert_eq.
      split; [done|]. by apply list_lookup_insert_eq.
    + simpl. by eapply list_find_insert_same.
Qed.

Lemma rate_last_write_wins_witness :
  prompts
    (rate reliable
       (mkRateBody (Some "Acme") (Some "slogan") (Some (JNumber 1)) None)
       (rate reliable
          (mkRateBody (Some "Acme") (Some "slogan") (Some (JNumber 5))
             (Some "great")) world0).2).2 !! 0%nat
  = Some (Prompt.mk "Acme" "slogan" "Anvils that land." (Some 1%float) None).
Proof.
  refine (proj2 (proj2 (proj2
            (rate_last_write_wins reliable "Acme" "slogan" 5%float
               (Some "great") world0 0
               (Prompt.mk "Acme" "slogan" "Anvils that land." (Some 4%float)
                  (Some "good")) _ _ _ _ _ _)) 1%float None));
    done.
Defined.

(* ================================================================= *)
(** * Further properties of the routes *)

(** Unfolds a route down to its store and provider calls. *)
Ltac unfold_routes :=
  unfold handle, root, onboard, generate, rate, analytics, respond, tryCatch,
    await, resolve, Organization_create, Organization_findOne, Prompt_create,
    Prompt_findOne, Prompt_save, Prompt_find, openai_chat_completions_create,
    store.

(** Splits a route into its paths: one case per guard, store outcome,
    lookup result and provider answer. *)
Ltac crack :=
  repeat
    (cbn beta iota zeta delta
       [fst snd status body organizations prompts sent fmap option_fmap
        option_map];
     match goal with
     | |- context [if ?c then (Rejected, _) else _] => destruct c eqn:?
     | |- context [list_find ?P ?l] =>
         destruct (list_find P l) as [[? ?]|] eqn:?
     | |- context [match ?c with Some _ => (Resolved _, _) | None => _ end] =>
         destruct c eqn:?
     | |- context [if (?a || ?b)%bool then _ else _] =>
         destruct (a || b)%bool eqn:?
     | |- context [Nat.eqb (length ?l) 0] =>
         destruct (Nat.eqb (length l) 0) eqn:?
     end);
  cbn beta iota zeta delta
    [fst snd status body organizations prompts sent fmap option_fmap
     option_map].

(** *** Generation, beyond the claims *)

Lemma generate_guard b :
  not_ (generate_orgName b) || not_ (generate_prompt b) = true
  <-> missing (generate_orgName b) \/ missing (generate_prompt b).
Proof. by rewrite orb_true_iff, !not_true. Qed.

(** X1: a generation request whose [orgName] or [prompt] is missing
    (absent or empty) is answered 400 "orgName and prompt are required"
    before anything else happens: no lookup, no provider call, no
    record, whatever the state of the store. *)
Theorem generate_missing_field storeFails complete b w :
  missing (generate_orgName b) \/ missing (generate_prompt b) ->
  generate storeFails complete b w
  = (json 400 (Error "orgName and prompt are required"), w).
Proof.
  intros H%generate_guard. unfold generate. by rewrite H.
Qed.

Lemma generate_missing_field_witness :
  generate down echo (mkGenerateBody (Some "Acme") (Some "")) world0
  = (json 400 (Error "orgName and prompt are required"), world0).
Proof.
  apply (generate_missing_field down echo
           (mkGenerateBody (Some "Acme") (Some "")) world0).
  right. right. reflexivity.
Defined.

(** X2: generation stores a Prompt record exactly when it answers 200.
    Then the one record appended carries the request's [orgName] and
    [prompt] and the very content that the answer returns (the
    provider's text, or [null] or nothing when its message held [null]
    or no content), unrated; on 400, 404 and 500 (provider failure
    included) the Prompt collection is as before.  The organizations are
    never touched. *)
Theorem generate_persists_iff_200 storeFails complete b w :
  let response := (generate storeFails complete b w).1 in
  let w' := (generate storeFails complete b w).2 in
  organizations w' = organizations w
  /\ ((status response = 200%Z
       /\ exists content : MessageContent,
            body response = Content content
            /\ prompts w'
               = prompts w ++
                 [Prompt.mk (text (generate_orgName b))
                    (text (generate_prompt b)) content None None])
      \/ ((status response = 400%Z \/ status response = 404%Z
           \/ status response = 500%Z)
          /\ prompts w' = prompts w)).
Proof.
  unfold_routes. crack; split; try done; eauto 10.
Qed.



(** X3: whatever a request hands to the provider's client is the chat
    request of a generation request, built from the organization that
    the lookup returned for the requested [orgName] and from the
    request's prompt, and that generation request is answered 200 or
    500.  Nothing else is ever handed over: the other routes, and
    generation requests answered 400 or 404, leave [sent] as it was. *)
Theorem provider_called_for_found_organization storeFails complete req w :
  let response := (handle storeFails complete req w).1 in
  let w' := (handle storeFails complete req w).2 in
  (forall request,
     request ∈ sent w' ->
     request ∈ sent w
     \/ exists b i org,
          req = PostGenerate b
          /\ list_find
               (fun o => Organization.orgName o = text (generate_orgName b))
               (organizations w) = Some (i, org)
          /\ request = completionRequest org (text (generate_prompt b))
          /\ (status response = 200%Z \/ status response = 500%Z))
  /\ match req with
     | PostGenerate _ =>
         status response = 400%Z \/ status response = 404%Z ->
         sent w' = sent w
     | _ => sent w' = sent w
     end.
Proof.
  destruct req as [|b|b|b|name]; unfold_routes; crack;
    (split; [|try done; by intros [|]]);
    intros request Hin; auto;
    apply elem_of_app in Hin as [Hin|Hin%list_elem_of_singleton]; auto;
    right; exists b; eauto 10.
Qed.

Lemma provider_called_for_found_organization_witness :
  completionRequest acme "motto" ∈ sent world0
  \/ exists b i org,
       PostGenerate (mkGenerateBody (Some "Acme") (Some "motto"))
       = PostGenerate b
       /\ list_find
            (fun o => Organization.orgName o = text (generate_orgName b))
            (organizations world0) = Some (i, org)
       /\ completionRequest acme "motto"
          = completionRequest org (text (generate_prompt b))
       /\ (status
             (handle reliable echo
                (PostGenerate (mkGenerateBody (Some "Acme") (Some "motto")))
                world0).1 = 200%Z
           \/ status
                (handle reliable echo
                   (PostGenerate (mkGenerateBody (Some "Acme") (Some "motto")))
                   world0).1 = 500%Z).
Proof.
  apply (proj1 (provider_called_for_found_organization reliable echo
                  (PostGenerate (mkGenerateBody (Some "Acme") (Some "motto")))
                  world0)).
  apply list_elem_of_singleton. reflexivity.
Defined.

(** X4: every answer is either a 200 with the body of its route (the
    welcome text, a confirmation message, [{content}] with whatever
    content the provider's message held, or analytics over at least one
    record) or an [{error}] body with a status among those
    the route can give: 400 or 500 for onboarding, 400, 404 or 500 for
    generation and rating, 404 or 500 for analytics; the root route never
    fails. *)
Theorem answers_by_route storeFails complete req w :
  let response := (handle storeFails complete req w).1 in
  (status response = 200%Z
   /\ match req with
      | GetRoot => body response = Text "Welcome to AI Content Assistant API!"
      | PostOnboard _ =>
          body response = Message "Organization onboarded successfully"
      | PostGenerate _ =>
          exists content : MessageContent, body response = Content content
      | PostRate _ => body response = Message "Feedback recorded"
      | GetAnalytics _ =>
          exists n average last5,
            body response = Analytics n average last5 /\ (0 < n)%nat
      end)
  \/ (exists message, body response = Error message)
     /\ match req with
        | GetRoot => False
        | PostOnboard _ => status response = 400%Z \/ status response = 500%Z
        | PostGenerate _ | PostRate _ =>
            status response = 400%Z \/ status response = 404%Z
            \/ status response = 500%Z
        | GetAnalytics _ => status response = 404%Z \/ status response = 500%Z
        end.
Proof.
  destruct req as [|b|b|b|name]; unfold_routes; crack; eauto 10.
  left. split; [done|]. eexists _, _, _. split; [done|].
  match goal with
  | H : Nat.eqb _ 0 = false |- _ => apply Nat.eqb_neq in H; lia
  end.
Qed.

(** X5: a request that is not answered 200 leaves both collections as
    they were: no record is created or modified by a request that
    fails, whichever route and whichever failure (validation, unknown
    name, store or provider rejection). *)
Theorem failed_request_stores_nothing storeFails complete req w :
  status (handle storeFails complete req w).1 <> 200%Z ->
  organizations (handle storeFails complete req w).2 = organizations w
  /\ prompts (handle storeFails complete req w).2 = prompts w.
Proof.
  destruct req as [|b|b|b|name]; unfold_routes; crack; done.
Qed.

Lemma failed_request_stores_nothing_witness :
  organizations
    (handle reliable (fun _ => None)
       (PostGenerate (mkGenerateBody (Some "Acme") (Some "motto"))) world0).2
  = organizations world0
  /\ prompts
       (handle reliable (fun _ => None)
          (PostGenerate (mkGenerateBody (Some "Acme") (Some "motto")))
          world0).2
     = prompts world0.
Proof.
  apply (failed_request_stores_nothing reliable (fun _ => None)
           (PostGenerate (mkGenerateBody (Some "Acme") (Some "motto")))
           world0).
  vm_compute. discriminate.
Defined.

(** The analytics answer is a function of the records that match. *)
Lemma analytics_of_found storeFails orgName w1 w2 :
  filter (fun p => Prompt.orgName p = orgName) (prompts w1)
  = filter (fun p => Prompt.orgName p = orgName) (prompts w2) ->
  (analytics storeFails orgName w1).1 = (analytics storeFails orgName w2).1.
Proof.
  intros Hsame. unfold_routes.
  destruct (storeFails PromptFind); [done|].
  cbn beta iota zeta. rewrite Hsame. by destruct (Nat.eqb _ _).
Qed.

(** X6: analytics only reads, and reads only the Prompt records of the
    requested [orgName]: it leaves the world as it found it, and two
    stores that hold the same matching records in the same order get the
    same answer, whatever else they hold. *)
Theorem analytics_reads_matching_records storeFails orgName w1 w2 :
  filter (fun p => Prompt.orgName p = orgName) (prompts w1)
  = filter (fun p => Prompt.orgName p = orgName) (prompts w2) ->
  (analytics storeFails orgName w1).1 = (analytics storeFails orgName w2).1
  /\ (analytics storeFails orgName w1).2 = w1.
Proof.
  intros Hsame. split; [by apply analytics_of_found|].
  unfold_routes. crack; done.
Qed.

Lemma analytics_reads_matching_records_witness :
  (analytics reliable "Acme" world0).1 = (analytics reliable "Acme" world2).1
  /\ (analytics reliable "Acme" world0).2 = world0.
Proof.
  apply (analytics_reads_matching_records reliable "Acme" world0 world2).
  reflexivity.
Defined.

(** X7: no request deletes or moves a Prompt record or changes its
    [orgName], [prompt] or [content]: a record found at some position
    before a request is found at the same position after it with these
    three fields intact, and is entirely unchanged unless the request is
    a rating. *)
Theorem prompt_records_persist storeFails complete req w j p :
  prompts w !! j = Some p ->
  exists p',
    prompts (handle storeFails complete req w).2 !! j = Some p'
    /\ Prompt.orgName p' = Prompt.orgName p
    /\ Prompt.prompt p' = Prompt.prompt p
    /\ Prompt.content p' = Prompt.content p
    /\ match req with PostRate _ => True | _ => p' = p end.
Proof.
  intros Hj.
  destruct req as [|b|b|b|name]; unfold_routes; crack; eauto 10.
  - exists p. split; [|done]. by apply lookup_app_l_Some.
  - match goal with
    | H : list_find _ _ = Some (?i, ?e) |- _ =>
        apply list_find_Some in H as (Hi & _ & _);
        destruct (decide (j = i)) as [->|Hne]
    end.
    + eexists. split.
      * apply list_lookup_insert_eq. by eapply lookup_lt_Some.
      * rewrite Hj in Hi. by injection Hi as <-.
    + exists p. by rewrite list_lookup_insert_ne.
Qed.

Lemma prompt_records_persist_witness :
  exists p',
    prompts
      (handle reliable echo
         (PostRate
            (mkRateBody (Some "Acme") (Some "slogan") (Some (JNumber 1))
               None)) world0).2 !! 0%nat = Some p'
    /\ Prompt.orgName p' = "Acme"
    /\ Prompt.prompt p' = "slogan"
    /\ Prompt.content p' = "Anvils that land."
    /\ True.
Proof.
  apply (prompt_records_persist reliable echo
           (PostRate
              (mkRateBody (Some "Acme") (Some "slogan") (Some (JNumber 1))
                 None))
           world0 0
           (Prompt.mk "Acme" "slogan" "Anvils that land." (Some 4%float)
              (Some "good"))).
  reflexivity.
Defined.

Lemma onboard_world storeFails b w :
  exists created,
    (onboard storeFails b w).2
    = mkWorld (organizations w ++ created) (prompts w) (sent w)
    /\ (status (onboard storeFails b w).1 = 200%Z ->
        exists org,
          created = [org]
          /\ Organization.orgName org = text (onboard_orgName b)).
Proof.
  unfold_routes. crack;
    try (exists []; rewrite app_nil_r; by destruct w).
  eexists. split; [done|]. eauto.
Qed.

Lemma generate_sends storeFails complete o p w i org :
  o <> "" -> p <> "" ->
  storeFails OrganizationFindOne = false ->
  list_find (fun x => Organization.orgName x = o) (organizations w)
  = Some (i, org) ->
  let r := generate storeFails complete (mkGenerateBody (Some o) (Some p)) w in
  sent r.2 = sent w ++ [completionRequest org p]
  /\ (status r.1 = 200%Z \/ status r.1 = 500%Z).
Proof.
  intros Ho Hp Hstore Hfound r. subst r.
  rewrite (generate_found _ _ _ _ _ i org) by done.
  unfold_routes. crack; auto.
Qed.

(** X8: once an onboarding request has been answered 200, a generation
    request for the same [orgName] (with a prompt, and a lookup that
    completes) is never answered 404: it reaches the provider with the
    details of an organization of that name, and is answered 200 or
    500. *)
Theorem onboarded_organization_is_found storeFails complete b p w :
  status (onboard storeFails b w).1 = 200%Z ->
  p <> "" ->
  storeFails OrganizationFindOne = false ->
  let w1 := (onboard storeFails b w).2 in
  let r := generate storeFails complete
             (mkGenerateBody (onboard_orgName b) (Some p)) w1 in
  (status r.1 = 200%Z \/ status r.1 = 500%Z)
  /\ exists org,
       org ∈ organizations w1
       /\ Organization.orgName org = text (onboard_orgName b)
       /\ sent r.2 = sent w ++ [completionRequest org p].
Proof.
  intros Hok Hp Hstore w1. cbv zeta.
  destruct (onboard_world storeFails b w) as (created & Hw1 & Hcreated).
  destruct (Hcreated Hok) as (new & -> & Hname).
  assert (exists o, onboard_orgName b = Some o /\ o <> "") as (o & Ho & Hne).
  { revert Hok. unfold onboard.
    destruct (_ || _) eqn:Hguard; [done|]. intros _.
    apply onboard_guard_false in Hguard as (a & ? & ? & ? & ? & -> & ? & _).
    eauto. }
  rewrite Ho in *. simpl in Hname.
  assert (new ∈ organizations w1) as Hin.
  { subst w1. rewrite Hw1. simpl. apply elem_of_app. right.
    apply list_elem_of_singleton. done. }
  destruct (list_find_elem_of (fun x => Organization.orgName x = o)
              (organizations w1) new Hin Hname) as [[i org] Hfound].
  pose proof Hfound as (Hi & Horg & _)%list_find_Some.
  destruct (generate_sends storeFails complete o p w1 i org) as [Hsent Hst];
    try done.
  split; [exact Hst|]. exists org. split; [by eapply list_elem_of_lookup_2|].
  split; [done|]. rewrite Hsent. subst w1. by rewrite Hw1.
Qed.

Lemma onboarded_organization_is_found_witness :
  (status
     (generate reliable echo (mkGenerateBody (Some "Initech") (Some "memo"))
        (onboard reliable
           (mkOnboardBody (Some "Initech") (Some "Drab") (Some "TPS reports")
              (Some "Managers") (Some "Formal")) world0).2).1 = 200%Z
   \/ status
        (generate reliable echo
           (mkGenerateBody (Some "Initech") (Some "memo"))
           (onboard reliable
              (mkOnboardBody (Some "Initech") (Some "Drab")
                 (Some "TPS reports") (Some "Managers") (Some "Formal"))
              world0).2).1 = 500%Z)
  /\ exists org,
       org ∈ organizations
               (onboard reliable
                  (mkOnboardBody (Some "Initech") (Some "Drab")
                     (Some "TPS reports") (Some "Managers") (Some "Formal"))
                  world0).2
       /\ Organization.orgName org = "Initech"
       /\ sent
            (generate reliable echo
               (mkGenerateBody (Some "Initech") (Some "memo"))
               (onboard reliable
                  (mkOnboardBody (Some "Initech") (Some "Drab")
                     (Some "TPS reports") (Some "Managers") (Some "Formal"))
                  world0).2).2
          = sent world0 ++ [completionRequest org "memo"].
Proof.
  apply (onboarded_organization_is_found reliable echo
           (mkOnboardBody (Some "Initech") (Some "Drab") (Some "TPS reports")
              (Some "Managers") (Some "Formal")) "memo" world0);
    done.
Defined.



Lemma generate_200 storeFails complete b w :
  status (generate storeFails complete b w).1 = 200%Z ->
  exists o p T request,
    b = mkGenerateBody (Some o) (Some p) /\ o <> "" /\ p <> ""
    /\ generate storeFails complete b w
       = (json 200 (Content T),
          mkWorld (organizations w)
            (prompts w ++ [Prompt.mk o p T None None])
            (sent w ++ [request])).
Proof.
  unfold generate. destruct (_ || _) eqn:Hguard; [done|].
  apply orb_false_iff in Hguard as [Ho Hp].
  apply not_false in Ho as (o & Ho & ?), Hp as (p & Hp & ?).
  destruct b as [bo bp]. simpl in Ho, Hp. subst bo bp.
  unfold_routes. crack; try done.
  intros _. by eexists o, p, _, _.
Qed.

(** X10: after a generation request answered 200, a rating request for
    the same ([orgName], [prompt]) pair with a numeric rating (and a
    store that completes the lookup and the write) is answered 200, not
    404.  The record rated has that pair and is the first one that has
    it: no record before it in the store has the pair, so it is the new
    record exactly when no earlier record has the pair, and an earlier
    one otherwise. *)
Theorem generated_prompt_can_be_rated storeFails complete o p x feedback w :
  status (generate storeFails complete
            (mkGenerateBody (Some o) (Some p)) w).1 = 200%Z ->
  storeFails PromptFindOne = false ->
  storeFails PromptSave = false ->
  let w1 :=
    (generate storeFails complete (mkGenerateBody (Some o) (Some p)) w).2 in
  let r :=
    rate storeFails
      (mkRateBody (Some o) (Some p) (Some (JNumber x)) feedback) w1 in
  status r.1 = 200%Z
  /\ exists i entry,
       (i <= length (prompts w))%nat
       /\ prompts r.2 !! i = Some entry
       /\ Prompt.orgName entry = o /\ Prompt.prompt entry = p
       /\ Prompt.rating entry = Some x /\ Prompt.feedback entry = feedback
       /\ (forall j q,
             (j < i)%nat -> prompts w !! j = Some q ->
             ~ (Prompt.orgName q = o /\ Prompt.prompt q = p))
       /\ ((forall q, q ∈ prompts w ->
              ~ (Prompt.orgName q = o /\ Prompt.prompt q = p)) ->
           i = length (prompts w)).
Proof.
  intros Hok Hfind Hsave. cbv zeta.
  destruct (generate_200 _ _ _ _ Hok)
    as (o' & p' & T & request & [= <- <-] & Ho & Hp & ->).
  cbn [snd].
  set (w1 := mkWorld _ _ _).
  set (new := Prompt.mk o p T None None).
  assert (new ∈ prompts w1) as Hin.
  { apply elem_of_app. right. by apply list_elem_of_singleton. }
  destruct (list_find_elem_of
              (fun q => Prompt.orgName q = o /\ Prompt.prompt q = p)
              (prompts w1) new Hin ltac:(done)) as [[i entry] Hfound].
  rewrite (rate_found _ _ _ _ _ w1 i entry) by done.
  pose proof Hfound as (Hi & [Hname Hprompt] & Hfirst)%list_find_Some.
  pose proof (lookup_lt_Some _ _ _ Hi) as Hlt.
  cbn [prompts w1] in Hlt, Hi. rewrite length_app in Hlt. simpl in Hlt.
  split; [done|]. exists i. eexists. split; [lia|]. split.
  { cbn [snd prompts]. apply list_lookup_insert_eq.
    cbn [w1 prompts]. rewrite length_app. simpl. lia. }
  cbn [Prompt.orgName Prompt.prompt Prompt.rating Prompt.feedback].
  repeat (split; [done|]).
  split.
  { intros j q Hj Hq. apply (Hfirst j q); [|done].
    cbn [w1 prompts]. by apply lookup_app_l_Some. }
  intros Hnone.
  destruct (decide (i = length (prompts w))) as [|Hne]; [done|].
  exfalso. rewrite lookup_app_l in Hi by lia.
  apply (Hnone entry); [by eapply list_elem_of_lookup_2|done].
Qed.

Lemma generated_prompt_can_be_rated_witness :
  status
    (rate reliable
       (mkRateBody (Some "Acme") (Some "motto") (Some (JNumber 5)) None)
       (generate reliable echo (mkGenerateBody (Some "Acme") (Some "motto"))
          world0).2).1 = 200%Z.
Proof.
  apply (generated_prompt_can_be_rated reliable echo "Acme" "motto" 5%float
           None world0);
    reflexivity.
Defined.

(** X11: after a generation request answered 200, analytics for its
    [orgName] (with a retrieval that completes, records coming back in
    the order in which they were created) is answered 200,
    [totalGenerated] is one more than the number of records the
    organization had, and [last5Feedbacks] is the [prompt], [rating] and
    [feedback] of the last four (or fewer) of the records it had, in
    order, followed by the new record's entry: its prompt, no rating, no
    feedback. *)
Theorem generation_shows_in_analytics storeFails complete o p w :
  status (generate storeFails complete
            (mkGenerateBody (Some o) (Some p)) w).1 = 200%Z ->
  storeFails PromptFind = false ->
  let w1 :=
    (generate storeFails complete (mkGenerateBody (Some o) (Some p)) w).2 in
  let found := filter (fun q => Prompt.orgName q = o) (prompts w) in
  exists average earlier,
    analytics storeFails o w1
    = (json 200
         (Analytics (S (length found)) average
            (earlier ++ [mkFeedback p None None])),
       w1)
    /\ earlier
       = (fun q => mkFeedback (Prompt.prompt q) (Prompt.rating q)
                     (Prompt.feedback q))
         <$> drop (length found - 4) found
    /\ length earlier = Nat.min 4 (length found).
Proof.
  intros Hok Hfind. cbv zeta.
  destruct (generate_200 _ _ _ _ Hok)
    as (o' & p' & T & request & [= <- <-] & Ho & Hp & ->).
  cbn [snd].
  set (w1 := mkWorld _ _ _).
  set (found := filter _ (prompts w)).
  assert (filter (fun q => Prompt.orgName q = o) (prompts w1)
          = found ++ [Prompt.mk o p T None None]) as Hfound.
  { cbn [w1 prompts]. rewrite filter_app. by rewrite filter_cons_True. }
  rewrite analytics_found; rewrite ?Hfound; [|done|by destruct found].
  rewrite slice_last5, length_app. simpl length.
  rewrite drop_app_le by lia. rewrite fmap_app.
  replace (length found + 1 - 5)%nat with (length found - 4)%nat by lia.
  eexists _, _. split; [|split; [reflexivity|]].
  - repeat f_equal. lia.
  - rewrite length_fmap, length_drop. lia.
Qed.

Lemma generation_shows_in_analytics_witness :
  exists average earlier,
    analytics reliable "Acme"
      (generate reliable echo (mkGenerateBody (Some "Acme") (Some "motto"))
         world0).2
    = (json 200
         (Analytics
            (S (length (filter (fun q => Prompt.orgName q = "Acme")
                          (prompts world0))))
            average (earlier ++ [mkFeedback "motto" None None])),
       (generate reliable echo (mkGenerateBody (Some "Acme") (Some "motto"))
          world0).2)
    /\ earlier
       = (fun q => mkFeedback (Prompt.prompt q) (Prompt.rating q)
                     (Prompt.feedback q))
         <$> drop
               (length (filter (fun q => Prompt.orgName q = "Acme")
                          (prompts world0)) - 4)
               (filter (fun q => Prompt.orgName q = "Acme") (prompts world0))
    /\ length earlier
       = Nat.min 4
           (length (filter (fun q => Prompt.orgName q = "Acme")
                      (prompts world0))).
Proof.
  apply (generation_shows_in_analytics reliable echo "Acme" "motto" world0);
    reflexivity.
Defined.

Lemma filter_insert_other {A} (F : A -> Prop) `{forall a, Decision (F a)}
    (l : list A) i a a' :
  l !! i = Some a -> ~ F a -> ~ F a' ->
  filter F (<[i := a']> l) = filter F l.
Proof.
  intros Hi Ha Ha'.
  rewrite insert_take_drop by (by eapply lookup_lt_Some).
  rewrite <- (take_drop_middle l i a Hi) at 3.
  by rewrite !filter_app, !filter_cons_False.
Qed.

(** X12: requests of one organization do not show in the analytics of
    another: after any request that is not a generation or rating for
    [orgName] itself, the analytics answer for [orgName] is what it was
    before. *)
Theorem other_organizations_keep_analytics storeFails complete req orgName w :
  match req with
  | PostGenerate b => text (generate_orgName b) <> orgName
  | PostRate b => text (rate_orgName b) <> orgName
  | _ => True
  end ->
  (analytics storeFails orgName (handle storeFails complete req w).2).1
  = (analytics storeFails orgName w).1.
Proof.
  intros Hother. apply analytics_of_found.
  destruct req as [|b|b|b|name]; unfold_routes; crack; try done.
  - rewrite filter_app, filter_cons_False by done. by rewrite app_nil_r.
  - match goal with
    | H : list_find _ _ = Some _ |- _ =>
        apply list_find_Some in H as (Hi & [Hname _] & _)
    end.
    eapply filter_insert_other; [done| |]; cbn; congruence.
Qed.

Lemma other_organizations_keep_analytics_witness :
  (analytics reliable "Initech"
     (handle reliable echo
        (PostRate
           (mkRateBody (Some "Acme") (Some "slogan") (Some (JNumber 1)) None))
        world2).2).1
  = (analytics reliable "Initech" world2).1.
Proof.
  apply (other_organizations_keep_analytics reliable echo
           (PostRate
              (mkRateBody (Some "Acme") (Some "slogan") (Some (JNumber 1))
                 None))
           "Initech" world2).
  discriminate.
Defined.

(** X13: while the store rejects every operation, no request changes
    anything or reaches the provider: the world is left as it was, and
    apart from the root route every answer is 400 (validation) or
    500. *)
Theorem store_down_changes_nothing storeFails complete req w :
  (forall op, storeFails op = true) ->
  (handle storeFails complete req w).2 = w
  /\ (req = GetRoot
      \/ status (handle storeFails complete req w).1 = 400%Z
      \/ status (handle storeFails complete req w).1 = 500%Z).
Proof.
  intros Hdown.
  destruct req as [|b|b|b|name]; unfold_routes; rewrite ?Hdown; crack; auto.
Qed.

Lemma store_down_changes_nothing_witness :
  (handle down echo
     (PostGenerate (mkGenerateBody (Some "Acme") (Some "motto"))) world0).2
  = world0
  /\ (PostGenerate (mkGenerateBody (Some "Acme") (Some "motto")) = GetRoot
      \/ status
           (handle down echo
              (PostGenerate (mkGenerateBody (Some "Acme") (Some "motto")))
              world0).1 = 400%Z
      \/ status
           (handle down echo
              (PostGenerate (mkGenerateBody (Some "Acme") (Some "motto")))
              world0).1 = 500%Z).
Proof.
  apply (store_down_changes_nothing down echo
           (PostGenerate (mkGenerateBody (Some "Acme") (Some "motto")))
           world0).
  reflexivity.
Defined.

(** A magnitude below 0.005 rounds to zero hundredths. *)
Lemma nearest_small q :
  (0 <= q)%Q -> (q < 1 # 200)%Q -> nearest 2 q = 0%Z.
Proof.
  intros Hq Hsmall. unfold nearest.
  change (10 ^ Z.of_nat 2)%Q with (100 # 1).
  set (y := (q * (100 # 1) + (1 # 2))%Q).
  pose proof (Qfloor_le y) as Hle. pose proof (Qlt_floor y) as Hlt.
  assert ((1 # 2) <= y)%Q by (unfold y; lra).
  assert (y < 1)%Q by (unfold y; lra).
  assert (inject_Z (Qfloor y) < inject_Z 1)%Q as Hup
    by (change (inject_Z 1) with 1%Q; lra).
  assert (inject_Z (-1) < inject_Z (Qfloor y))%Q as Hdown.
  { rewrite inject_Z_plus in Hlt. change (inject_Z 1) with 1%Q in Hlt.
    change (inject_Z (-1)) with (-1 # 1)%Q. lra. }
  rewrite <- Zlt_Qlt in Hup, Hdown. lia.
Qed.

(** X14: when the mean of the matching records is negative and smaller
    than 0.005 in magnitude, [averageRating] is the text "-0.00": the
    sign is kept although every digit is zero. *)
Theorem small_negative_average storeFails orgName w q :
  storeFails PromptFind = false ->
  let found := filter (fun p => Prompt.orgName p = orgName) (prompts w) in
  found <> [] ->
  real (avgRating found) = Some (true, q) ->
  (q < 1 # 200)%Q ->
  exists last5,
    analytics storeFails orgName w
    = (json 200 (Analytics (length found) "-0.00" last5), w).
Proof.
  intros Hstore found Hsome Hreal Hsmall.
  rewrite analytics_found by done. fold found. eexists.
  assert (q < 10 ^ 21)%Q as Hbound.
  { eapply Qlt_trans; [exact Hsmall|]. reflexivity. }
  destruct (toFixed_2 _ _ _ Hreal Hbound) as [Hq ->].
  rewrite nearest_small by done. reflexivity.
Qed.

Lemma small_negative_average_witness :
  exists last5,
    analytics reliable "Acme" worldNegative
    = (json 200
         (Analytics
            (length (filter (fun p => Prompt.orgName p = "Acme")
                       (prompts worldNegative)))
            "-0.00" last5),
       worldNegative).
Proof.
  eapply (small_negative_average reliable "Acme" worldNegative).
  - reflexivity.
  - discriminate.
  - vm_compute. reflexivity.
  - vm_compute. reflexivity.
Defined.

(** X15: onboarding is not idempotent: an onboarding request answered
    200 and sent again is answered 200 again and leaves two records with
    the same name and details at the end of the collection; nothing
    rejects or merges the duplicate. *)
Theorem onboarding_twice_duplicates storeFails b w :
  status (onboard storeFails b w).1 = 200%Z ->
  exists org,
    Organization.orgName org = text (onboard_orgName b)
    /\ onboard storeFails b (onboard storeFails b w).2
       = (json 200 (Message "Organization onboarded successfully"),
          mkWorld (organizations w ++ [org; org]) (prompts w) (sent w)).
Proof.
  unfold_routes. crack; try done.
  all: try match goal with
           | H : ?c = true, H' : ?c = false |- _ => congruence
           end.
  intros _. eexists. split; [|by rewrite <- app_assoc]. reflexivity.
Qed.

Lemma onboarding_twice_duplicates_witness :
  exists org,
    Organization.orgName org = "Initech"
    /\ onboard reliable
         (mkOnboardBody (Some "Initech") (Some "Drab") (Some "TPS reports")
            (Some "Managers") (Some "Formal"))
         (onboard reliable
            (mkOnboardBody (Some "Initech") (Some "Drab")
               (Some "TPS reports") (Some "Managers") (Some "Formal"))
            world0).2
       = (json 200 (Message "Organization onboarded successfully"),
          mkWorld (organizations world0 ++ [org; org]) (prompts world0)
            (sent world0)).
Proof.
  apply (onboarding_twice_duplicates reliable
           (mkOnboardBody (Some "Initech") (Some "Drab") (Some "TPS reports")
              (Some "Managers") (Some "Formal")) world0).
  reflexivity.
Defined.
